(** * Account analysis components: shell, health panel, research panel

    A shallow embedding of the three Lightning web components of the
    repository,

      - [lwc/accountAnalysisApp/accountAnalysisApp.js]
        (classes [AccountAnalysisApp] and [AccountRelationshipHealth]),
      - [lwc/accountResearch/accountResearch.js] (class [AccountResearch]),

    together with the properties of their behaviour.  Component fields
    become record fields, methods become functions on the record, toasts,
    remote calls and timers become an explicit trace of events, and the
    promise chain of a fetch is split into its synchronous start and the
    callbacks that run when the remote call settles. *)

From Stdlib Require Import ZArith Bool List String Ascii Lia.
From Stdlib Require Import Floats DecimalString Sorted.
Import ListNotations.

Set Warnings "-register-all,-inexact-float".
Local Open Scope list_scope.
Local Open Scope string_scope.

(** ** JavaScript values *)

Module Js.

(** The values that reach the [@api] properties of the panels: nothing,
    a timestamp as produced by [Date.now()] (an integral number of
    milliseconds), or a record identifier. *)
Inductive value : Type :=
| Undefined
| Null
| Bool (b : bool)
| Num (n : Z)
| Str (s : string).

(** [ToBoolean]: what [if (v)], [!v], [v && ...] and [v || ...] test. *)
Definition truthy (v : value) : bool :=
  match v with
  | Undefined | Null => false
  | Bool b => b
  | Num n => negb (n =? 0)%Z
  | Str s => negb (s =? "")
  end.

(** [a === b] on these primitives. *)
Definition strict_eqb (a b : value) : bool :=
  match a, b with
  | Undefined, Undefined => true
  | Null, Null => true
  | Bool x, Bool y => Bool.eqb x y
  | Num x, Num y => (x =? y)%Z
  | Str x, Str y => (x =? y)
  | _, _ => false
  end.

(** [a || b] *)
Definition or (a b : value) : value := if truthy a then a else b.

(** A property that holds text or is missing: [obj.field] is a string,
    or [undefined]/[null]. *)
Definition text := option string.

Definition truthy_text (t : text) : bool :=
  match t with
  | Some s => negb (s =? "")
  | None => false
  end.

(** [a || b || dflt] over text properties, ending in a literal. *)
Definition first_text (ts : list text) (dflt : string) : string :=
  match filter truthy_text ts with
  | Some s :: _ => s
  | _ => dflt
  end.

Definition Z_to_string (n : Z) : string :=
  NilZero.string_of_int (Z.to_int n).

(** [ToString], as a template literal applies it. *)
Definition to_string (v : value) : string :=
  match v with
  | Undefined => "undefined"
  | Null => "null"
  | Bool true => "true"
  | Bool false => "false"
  | Num n => Z_to_string n
  | Str s => s
  end.

(** [s.startsWith(p)] *)
Definition startsWith (s p : string) : bool := String.prefix p s.

End Js.

(** ** The fragment of the DOM that [escapeHtml] touches *)

Module Dom.

Inductive node : Type :=
| Text (data : string)
| Element (tag : string) (children : list node).

Definition createTextNode (data : string) : node := Text data.

Definition createElement (tag : string) : node := Element tag [].

(** [parent.appendChild(child)]; a text node takes no children. *)
Definition appendChild (parent child : node) : node :=
  match parent with
  | Element tag children => Element tag (children ++ [child])
  | Text data => Text data
  end.

(** The [textContent] getter: the data of the text nodes below the node,
    concatenated in document order.  It is the text itself, not its
    serialisation as markup. *)
Fixpoint textContent (n : node) : string :=
  match n with
  | Text data => data
  | Element _ children =>
      (fix all (l : list node) : string :=
         match l with
         | [] => ""
         | c :: r => textContent c ++ all r
         end) children
  end.

End Dom.

(** ** Effects: component state, plus the trace of what a method emits *)

(** What a component hands to the platform while a method runs. *)
Inductive Callback : Type :=
| ResetAnalyzing                       (* shell: [this.isAnalyzing = false] *)
| Refresh                              (* panel: call the refresh routine *)
| RefreshIfCurrent (value : Js.value)  (* panel: refresh if the id is still [value] *)
| RotateMessage.                       (* research panel: next loading message *)

Inductive RemoteCall : Type :=
| GetRelationshipHealth (accountId : Js.value)
| GetCompanyResearch (accountId : Js.value)
| SaveCompanyResearch (accountId : Js.value) (htmlContent : string).

Inductive Event : Type :=
| Assign (field : string) (value : Js.value)     (* write to a tracked shell field *)
| ShowToast (title message variant : string)     (* [dispatchEvent(new ShowToastEvent(..))] *)
| SetTimeout (callback : Callback) (ms : Z)
| SetInterval (handle : nat) (callback : Callback) (ms : Z)
| ClearInterval (handle : nat)
| Apex (call : RemoteCall).

Section Effects.

Context {S : Type}.

(** A method body: it reads and writes the component and emits events. *)
Definition Eff (A : Type) : Type := S -> A * S * list Event.

Definition ret {A} (a : A) : Eff A := fun s => (a, s, []).

Definition bind {A B} (m : Eff A) (k : A -> Eff B) : Eff B :=
  fun s =>
    let '(a, s1, t1) := m s in
    let '(b, s2, t2) := k a s1 in
    (b, s2, t1 ++ t2)%list.

Definition get : Eff S := fun s => (s, s, []).

Definition modify (f : S -> S) : Eff unit := fun s => (tt, f s, []).

Definition emit (e : Event) : Eff unit := fun s => (tt, s, [e]).

Definition state_after {A} (m : Eff A) (s : S) : S := snd (fst (m s)).

Definition trace_of {A} (m : Eff A) (s : S) : list Event := snd (m s).

End Effects.

Arguments Eff : clear implicits.

Declare Scope eff_scope.
Delimit Scope eff_scope with eff.
Notation "x <- m ;; k" := (bind m (fun x => k))
  (at level 61, m at next level, right associativity) : eff_scope.
Notation "m ;; k" := (bind m (fun _ => k))
  (at level 61, right associativity) : eff_scope.

(** The call of [showToast] that all three classes define alike. *)
Definition showToast {S} (title message variant : string) : Eff S unit :=
  emit (ShowToast title message variant).

(** ** Shell: [AccountAnalysisApp] *)

Module Shell.

Record t : Type := mk {
  selectedAccountId : Js.value;
  selectedAccountName : Js.value;
  isAnalyzing : bool;
  analysisTrigger : Js.value
}.

(** Field initialisers of the class. *)
Definition initial : t :=
  {| selectedAccountId := Js.Null;
     selectedAccountName := Js.Null;
     isAnalyzing := false;
     analysisTrigger := Js.Num 0 |}.

Definition set_isAnalyzing (b : bool) : Eff t unit :=
  (modify (fun s => mk (selectedAccountId s) (selectedAccountName s) b
                       (analysisTrigger s)) ;;
   emit (Assign "isAnalyzing" (Js.Bool b)))%eff.

Definition set_analysisTrigger (v : Js.value) : Eff t unit :=
  (modify (fun s => mk (selectedAccountId s) (selectedAccountName s)
                       (isAnalyzing s) v) ;;
   emit (Assign "analysisTrigger" v))%eff.

(** [triggerAnalysis()]; [now] is what [Date.now()] returns. *)
Definition triggerAnalysis (now : Z) : Eff t unit :=
  (s <- get ;;
   if negb (Js.truthy (selectedAccountId s)) then ret tt
   else
     set_isAnalyzing true ;;
     set_analysisTrigger (Js.Num now) ;;
     emit (SetTimeout ResetAnalyzing 500))%eff.

(** [handleAnalyze()] *)
Definition handleAnalyze (now : Z) : Eff t unit :=
  (s <- get ;;
   if negb (Js.truthy (selectedAccountId s)) then
     showToast "Error" "Please select an account first" "error"
   else triggerAnalysis now)%eff.

(** The timer callbacks of the shell, when the platform runs them. *)
Definition fire (cb : Callback) : Eff t unit :=
  match cb with
  | ResetAnalyzing => set_isAnalyzing false
  | _ => ret tt
  end.

(** Number of writes to a tracked field in a trace. *)
Definition writes_to (field : string) (tr : list Event) : nat :=
  List.length
    (filter (fun e => match e with
                      | Assign f _ => (f =? field)
                      | _ => false
                      end) tr).

Definition hasSelectedAccount (s : t) : bool := Js.truthy (selectedAccountId s).

Definition isButtonDisabled (s : t) : bool :=
  isAnalyzing s || negb (hasSelectedAccount s).

End Shell.

(** ** The change-detection guard of the panels

    [AccountRelationshipHealth] and [AccountResearch] declare the same five
    fields ([recordId], [_accountId], [_analysisTrigger], [previousTrigger],
    [previousAccountId]) and the same two setters and getter over them; the
    setters differ only in which routine of the panel the timer calls
    ([handleRefresh] or [handleResearch]).  They are embedded once, and each
    panel record carries a [Guard.t]. *)

Module Guard.

Record t : Type := mk {
  recordId : Js.value;
  _accountId : Js.value;
  _analysisTrigger : Js.value;
  previousTrigger : Js.value;
  previousAccountId : Js.value
}.

Definition initial : t :=
  {| recordId := Js.Undefined;
     _accountId := Js.Null;
     _analysisTrigger := Js.Null;
     previousTrigger := Js.Null;
     previousAccountId := Js.Null |}.

(** [get accountId()] *)
Definition accountId (g : t) : Js.value := _accountId g.

(** [get analysisTrigger()] *)
Definition analysisTrigger (g : t) : Js.value := _analysisTrigger g.

(** [get currentAccountId()]: [this.accountId || this.recordId]. *)
Definition currentAccountId (g : t) : Js.value :=
  Js.or (accountId g) (recordId g).

(** [recordId] is a plain [@api] field: the host assigns it directly. *)
Definition set_recordId (value : Js.value) : Eff t unit :=
  modify (fun g => mk value (_accountId g) (_analysisTrigger g)
                      (previousTrigger g) (previousAccountId g)).

(** [set accountId(value)] *)
Definition set_accountId (value : Js.value) : Eff t unit :=
  (g <- get ;;
   let oldValue := _accountId g in
   modify (fun g => mk (recordId g) value (_analysisTrigger g)
                       (previousTrigger g) (previousAccountId g)) ;;
   if Js.truthy value
      && negb (Js.strict_eqb value oldValue)
      && negb (Js.strict_eqb value (previousAccountId g))
   then
     modify (fun g => mk (recordId g) (_accountId g) (_analysisTrigger g)
                         (previousTrigger g) value) ;;
     emit (SetTimeout (RefreshIfCurrent value) 100)
   else ret tt)%eff.

(** [set analysisTrigger(value)] *)
Definition set_analysisTrigger (value : Js.value) : Eff t unit :=
  (g <- get ;;
   (if Js.truthy value
       && negb (Js.strict_eqb value (previousTrigger g))
       && Js.truthy (currentAccountId g)
    then
      modify (fun g => mk (recordId g) (_accountId g) (_analysisTrigger g)
                          value (previousAccountId g)) ;;
      emit (SetTimeout Refresh 0)
    else ret tt) ;;
   modify (fun g => mk (recordId g) (_accountId g) value
                       (previousTrigger g) (previousAccountId g)))%eff.

(** The assignments a host can make to a panel. *)
Inductive assignment : Type :=
| SetRecordId (value : Js.value)
| SetAccountId (value : Js.value)
| SetAnalysisTrigger (value : Js.value).

Definition assign (a : assignment) : Eff t unit :=
  match a with
  | SetRecordId v => set_recordId v
  | SetAccountId v => set_accountId v
  | SetAnalysisTrigger v => set_analysisTrigger v
  end.

(** A sequence of assignments, in order. *)
Fixpoint assign_all (l : list assignment) : Eff t unit :=
  match l with
  | [] => ret tt
  | a :: r => (assign a ;; assign_all r)%eff
  end.

(** The timers that a trace schedules, by callback. *)
Definition is_timeout (cb : Callback -> bool) (e : Event) : bool :=
  match e with
  | SetTimeout c _ => cb c
  | _ => false
  end.

Definition is_Refresh (c : Callback) : bool :=
  match c with Refresh => true | _ => false end.

Definition is_RefreshIfCurrent (c : Callback) : bool :=
  match c with RefreshIfCurrent _ => true | _ => false end.

(** Refreshes scheduled in a trace by the trigger setter, and by the
    identifier setter. *)
Definition trigger_refreshes (tr : list Event) : nat :=
  List.length (filter (is_timeout is_Refresh) tr).

Definition account_refreshes (tr : list Event) : nat :=
  List.length (filter (is_timeout is_RefreshIfCurrent) tr).

End Guard.

(** ** Numbers as the health payload carries them

    Scores and currency amounts are JavaScript numbers, that is binary64
    floats; they are embedded as Rocq's primitive floats, whose arithmetic
    is the same IEEE 754 arithmetic. *)

Module Number.

Local Open Scope float_scope.

(** A numeric property that may be missing from its object. *)
Definition prop := option float.

(** [ToNumber(undefined)] is [NaN]. *)
Definition to_number (p : prop) : float :=
  match p with
  | Some x => x
  | None => nan
  end.

(** [ToBoolean] of a numeric property: false for a missing one, for zero of
    either sign and for [NaN]. *)
Definition truthy (p : prop) : bool :=
  match p with
  | Some x => negb (PrimFloat.eqb x 0 || PrimFloat.is_nan x)
  | None => false
  end.

(** [a >= b] *)
Definition ge (a b : float) : bool := PrimFloat.leb b a.

(** [Math.PI]: the binary64 nearest to the circle constant. *)
Definition PI : float := 0x1.921fb54442d18p+1.

Local Open Scope Z_scope.

(** [n / 10^f] written with [f] digits after the point (steps 9 and 10 of
    [Number.prototype.toFixed]): the decimal digits of [n], padded with
    zeros on the left to at least [f + 1] digits, the point inserted
    before the last [f]. *)
Fixpoint zeros (k : nat) : string :=
  match k with
  | O => ""
  | Datatypes.S k' => String "0" (zeros k')
  end.

Definition fixed_digits (n : Z) (f : nat) : string :=
  let m := Js.Z_to_string n in
  match f with
  | O => m
  | _ =>
      let m := (zeros (Datatypes.S f - String.length m) ++ m)%string in
      let k := String.length m in
      (substring 0 (k - f) m ++ "." ++ substring (k - f) f m)%string
  end.

(** The integer [n] for which [n / 10^f] is nearest to [mant * 2^ex], the
    larger one when two are equally near. *)
Definition nearest_scaled (mant ex : Z) (f : nat) : Z :=
  let scaled := mant * 10 ^ Z.of_nat f in
  if 0 <=? ex then scaled * 2 ^ ex
  else (2 * scaled + 2 ^ (- ex)) / (2 * 2 ^ (- ex)).

(** [mant * 2^ex >= 10^21] *)
Definition beyond_fixed (mant ex : Z) : bool :=
  if 0 <=? ex then 10 ^ 21 <=? mant * 2 ^ ex
  else 10 ^ 21 * 2 ^ (- ex) <=? mant.

(** [x.toFixed(f)].  Below [10^21] in magnitude the result is the decimal
    expansion rounded to [f] places.  From [10^21] on the method returns
    [Number::toString(x)], the shortest round-tripping exponent form, which
    is not modelled: the result is [None] there. *)
Definition toFixed (x : float) (f : nat) : option string :=
  match Prim2SF x with
  | S754_nan => Some "NaN"
  | S754_infinity false => Some "Infinity"
  | S754_infinity true => Some "-Infinity"
  | S754_zero _ => Some (fixed_digits 0 f)
  | S754_finite sign mant ex =>
      if beyond_fixed (Z.pos mant) ex then None
      else Some ((if sign then "-" else "")
                 ++ fixed_digits (nearest_scaled (Z.pos mant) ex f) f)%string
  end.

End Number.

(** ** Strings: what [healthStatusClass] calls on the status label *)

Module Text.

(** [c.toLowerCase()] on the ASCII letters; other bytes are kept (the
    status labels of the payload are ASCII). *)
Definition lower (c : ascii) : ascii :=
  let n := nat_of_ascii c in
  if (65 <=? n)%nat && (n <=? 90)%nat then ascii_of_nat (n + 32) else c.

Fixpoint toLowerCase (s : string) : string :=
  match s with
  | EmptyString => EmptyString
  | String c r => String (lower c) (toLowerCase r)
  end.

(** [s.replace(" ", "-")]: a string pattern replaces the first match only. *)
Fixpoint replace_space (s : string) : string :=
  match s with
  | EmptyString => EmptyString
  | String c r =>
      if Ascii.eqb c " " then String "-" r else String c (replace_space r)
  end.

(** [t === lit] for a text property and a [case] label. *)
Definition equals (t : Js.text) (lit : string) : bool :=
  match t with
  | Some s => (s =? lit)
  | None => false
  end.

(** [a || b] on text properties. *)
Definition or (a b : Js.text) : Js.text :=
  if Js.truthy_text a then a else b.

(** [ToString] of a text property, as [+] applies it. *)
Definition to_string (t : Js.text) : string :=
  match t with
  | Some s => s
  | None => "undefined"
  end.

End Text.

(** The error a rejected remote call carries: [error.body?.message] and
    [error.message]. *)
Record JsError : Type := {
  body_message : Js.text;
  message : Js.text
}.

(** ** Health panel: [AccountRelationshipHealth] *)

Module Health.

(** [result.metrics]; only the properties that the getters read. *)
Record Metrics : Type := {
  closedWonACV : Number.prop;
  closedLostACV : Number.prop;
  openCases : option Z;
  closedCases : option Z;
  caseCount : option Z;
  highPriorityOpenCases : option Z
}.

(** What [getRelationshipHealth] resolves to. *)
Module Result.
Record t : Type := {
  healthStatus : Js.text;
  score : Number.prop;
  trend : Js.text;
  keyInsights : option (list string);
  recommendedActions : option (list string);
  metrics : option Metrics;
  errorMessage : Js.text
}.
End Result.

(** The object literal that the [then] callback stores in [healthData]. *)
Record HealthData : Type := {
  healthStatus : Js.text;
  score : Number.prop;
  trend : Js.text;
  keyInsights : list string;
  recommendedActions : list string
}.

Record t : Type := mk {
  guard : Guard.t;
  healthData : option HealthData;
  metrics : option Metrics;
  isLoading : bool;
  hasError : bool;
  errorMessage : string
}.

Definition initial : t :=
  {| guard := Guard.initial;
     healthData := None;
     metrics := None;
     isLoading := false;
     hasError := false;
     errorMessage := "" |}.

Definition with_guard (g : Guard.t) (p : t) : t :=
  mk g (healthData p) (metrics p) (isLoading p) (hasError p) (errorMessage p).
Definition with_healthData (d : option HealthData) (p : t) : t :=
  mk (guard p) d (metrics p) (isLoading p) (hasError p) (errorMessage p).
Definition with_metrics (m : option Metrics) (p : t) : t :=
  mk (guard p) (healthData p) m (isLoading p) (hasError p) (errorMessage p).
Definition with_isLoading (b : bool) (p : t) : t :=
  mk (guard p) (healthData p) (metrics p) b (hasError p) (errorMessage p).
Definition with_hasError (b : bool) (p : t) : t :=
  mk (guard p) (healthData p) (metrics p) (isLoading p) b (errorMessage p).
Definition with_errorMessage (m : string) (p : t) : t :=
  mk (guard p) (healthData p) (metrics p) (isLoading p) (hasError p) m.

(** A guard method, run on the panel that carries the guard. *)
Definition on_guard {A} (m : Eff Guard.t A) : Eff t A :=
  fun p => let '(a, g, tr) := m (guard p) in (a, with_guard g p, tr).

Definition set_recordId (value : Js.value) : Eff t unit :=
  on_guard (Guard.set_recordId value).
Definition set_accountId (value : Js.value) : Eff t unit :=
  on_guard (Guard.set_accountId value).
Definition set_analysisTrigger (value : Js.value) : Eff t unit :=
  on_guard (Guard.set_analysisTrigger value).
Definition currentAccountId (p : t) : Js.value :=
  Guard.currentAccountId (guard p).

(** [handleRefresh()] up to and including the remote call. *)
Definition handleRefresh : Eff t unit :=
  (modify (with_isLoading true) ;;
   modify (with_hasError false) ;;
   modify (with_errorMessage "") ;;
   p <- get ;;
   let accountIdToUse := currentAccountId p in
   if negb (Js.truthy accountIdToUse) then
     modify (with_hasError true) ;;
     modify (with_errorMessage "No account ID provided.") ;;
     modify (with_isLoading false)
   else emit (Apex (GetRelationshipHealth accountIdToUse)))%eff.

(** The [then] callback.  [result] is the object the controller returns. *)
Definition onFulfilled (result : Result.t) : Eff t unit :=
  (modify (with_healthData
             (Some {| healthStatus := Result.healthStatus result;
                      score := Result.score result;
                      trend := Result.trend result;
                      keyInsights :=
                        match Result.keyInsights result with
                        | Some l => l
                        | None => []
                        end;
                      recommendedActions :=
                        match Result.recommendedActions result with
                        | Some l => l
                        | None => []
                        end |})) ;;
   modify (with_metrics (Result.metrics result)) ;;
   if Js.truthy_text (Result.errorMessage result) then
     modify (with_hasError true) ;;
     modify (with_errorMessage (Text.to_string (Result.errorMessage result))) ;;
     showToast "Warning" (Text.to_string (Result.errorMessage result)) "warning"
   else ret tt)%eff.

(** The [catch] callback. *)
Definition onRejected (error : JsError) : Eff t unit :=
  (modify (with_hasError true) ;;
   modify (with_errorMessage "Unable to load relationship health data.") ;;
   showToast "Error"
     ("Failed to load relationship health: "
      ++ Text.to_string (Text.or (body_message error) (message error)))
     "error")%eff.

(** The [finally] callback. *)
Definition onFinally : Eff t unit := modify (with_isLoading false).

(** How the remote call settles.  When it resolves with [null] or
    [undefined], the [then] callback throws on [result.healthStatus], before
    it has assigned anything; [thrown] is the message of that [TypeError],
    whose wording is the engine's. *)
Inductive outcome : Type :=
| Fulfilled (result : Result.t)
| FulfilledWithNull (thrown : string)
| Rejected (error : JsError).

(** The promise chain [.then(..).catch(..).finally(..)] when the remote call
    settles. *)
Definition settle (o : outcome) : Eff t unit :=
  (match o with
   | Fulfilled result => onFulfilled result
   | FulfilledWithNull thrown =>
       onRejected {| body_message := None; message := Some thrown |}
   | Rejected error => onRejected error
   end ;;
   onFinally)%eff.

(** The timer callbacks that the two setters schedule. *)
Definition fire (cb : Callback) : Eff t unit :=
  match cb with
  | Refresh => handleRefresh
  | RefreshIfCurrent value =>
      (p <- get ;;
       if Js.strict_eqb (currentAccountId p) value then handleRefresh
       else ret tt)%eff
  | _ => ret tt
  end.

(** *** Getters *)

Definition hasData (p : t) : bool :=
  match healthData p with
  | Some _ => negb (isLoading p)
  | None => false
  end.

Definition healthEmoji (p : t) : string :=
  match healthData p with
  | None => "❓"
  | Some d =>
      let s := healthStatus d in
      if Text.equals s "Excellent" then "🌟"
      else if Text.equals s "Good" then "✅"
      else if Text.equals s "Moderate" then "⚠️"
      else if Text.equals s "At Risk" then "🔴"
      else if Text.equals s "Critical" then "🚨"
      else "❓"
  end.

Definition healthStatusClass (p : t) : string :=
  match healthData p with
  | None => "unknown"
  | Some d =>
      let status :=
        match healthStatus d with
        | Some s => Some (Text.replace_space (Text.toLowerCase s))
        | None => None
        end in
      Js.first_text [status] "unknown"
  end.

Definition trendIcon (p : t) : string :=
  match healthData p with
  | None => "utility:forward"
  | Some d =>
      let s := trend d in
      if Text.equals s "Improving" then "utility:arrowup"
      else if Text.equals s "Declining" then "utility:arrowdown"
      else if Text.equals s "Stable" then "utility:forward"
      else "utility:forward"
  end.

Definition trendClass (p : t) : string :=
  match healthData p with
  | None => ""
  | Some d =>
      let s := trend d in
      if Text.equals s "Improving" then "trend-improving"
      else if Text.equals s "Declining" then "trend-declining"
      else if Text.equals s "Stable" then "trend-stable"
      else ""
  end.

Definition showEmptyState (p : t) : bool :=
  negb (isLoading p) && negb (hasData p) && negb (hasError p).

Definition scoreColor (p : t) : string :=
  match healthData p with
  | None => "#dddbda"
  | Some d =>
      let score := Number.to_number (score d) in
      if Number.ge score 80 then "#4bca81"
      else if Number.ge score 60 then "#ffb75d"
      else if Number.ge score 40 then "#fe9339"
      else "#ea001e"
  end.

Definition progressDashArray (p : t) : float :=
  let circumference := (2 * Number.PI * 70)%float in
  circumference.

Definition progressDashOffset (p : t) : float :=
  match healthData p with
  | None => progressDashArray p
  | Some d =>
      let circumference := progressDashArray p in
      let score := Number.to_number (score d) in
      let progress := (score / 100)%float in
      (circumference * (1 - progress))%float
  end.

(** [formatCurrency(value)]; [None] only where [toFixed] is not modelled. *)
Definition formatCurrency (value : float) : option string :=
  if Number.ge value 1000000 then
    option_map (fun s => "$" ++ s ++ "M")
               (Number.toFixed (value / 1000000)%float 1)
  else if Number.ge value 1000 then
    option_map (fun s => "$" ++ s ++ "K")
               (Number.toFixed (value / 1000)%float 1)
  else option_map (fun s => "$" ++ s) (Number.toFixed value 0).

Definition closedWonACVFormatted (p : t) : option string :=
  match metrics p with
  | None => Some "$0"
  | Some m =>
      if negb (Number.truthy (closedWonACV m)) then Some "$0"
      else formatCurrency (Number.to_number (closedWonACV m))
  end.

Definition closedLostACVFormatted (p : t) : option string :=
  match metrics p with
  | None => Some "$0"
  | Some m =>
      if negb (Number.truthy (closedLostACV m)) then Some "$0"
      else formatCurrency (Number.to_number (closedLostACV m))
  end.

(** [this.metrics?.field || 0] *)
Definition count_or_zero (field : Metrics -> option Z) (p : t) : Z :=
  match metrics p with
  | Some m =>
      match field m with
      | Some n => n
      | None => 0
      end
  | None => 0
  end.

Definition caseOpenCount : t -> Z := count_or_zero openCases.
Definition caseClosedCount : t -> Z := count_or_zero closedCases.
Definition caseTotalCount : t -> Z := count_or_zero caseCount.
Definition caseHighPriorityOpen : t -> Z := count_or_zero highPriorityOpenCases.

Definition showHighPriorityWarning (p : t) : bool :=
  (0 <? caseHighPriorityOpen p)%Z.

End Health.

(** ** Research panel: [AccountResearch] *)

Module Research.

(** [data.facts] *)
Record Facts : Type := {
  industry : Js.text;
  headquarters : Js.text;
  foundedYear : Js.value;
  employeeCountRange : Js.text;
  keyProducts : Js.text;
  targetMarket : Js.text;
  keyExecutives : Js.text;
  website : Js.text;
  recentNews : Js.text;
  recentNewsUrl : Js.text;
  growthIndicators : Js.text
}.

(** [data.links] *)
Record Links : Type := {
  websiteUrl : Js.text;
  linkedinUrl : Js.text;
  newsSearchUrl : Js.text
}.

(** An element of [data.headlines]. *)
Record Headline : Type := {
  title : Js.text;
  url : Js.text
}.

(** What [getCompanyResearch] resolves to, and what [data] then holds. *)
Record Data : Type := {
  overview : Js.text;
  facts : option Facts;
  links : option Links;
  headlines : option (list (option Headline))
}.

Record t : Type := mk {
  guard : Guard.t;
  isLoading : bool;
  isSaving : bool;
  hasError : bool;
  errorMessage : string;
  data : option Data;
  currentLoadingMessage : Js.text;
  loadingMessageInterval : option nat;
  loadingMessageIndex : nat
}.

Definition loadingMessages : list string :=
  [ "Researching company with Agentforce...";
    "Gathering web search results...";
    "Analyzing company information...";
    "Extracting key insights...";
    "Identifying growth opportunities...";
    "Compiling research summary..." ].

Definition initial : t :=
  {| guard := Guard.initial;
     isLoading := false;
     isSaving := false;
     hasError := false;
     errorMessage := "";
     data := None;
     currentLoadingMessage := Some "";
     loadingMessageInterval := None;
     loadingMessageIndex := 0 |}.

Definition with_guard (g : Guard.t) (p : t) : t :=
  mk g (isLoading p) (isSaving p) (hasError p) (errorMessage p) (data p)
     (currentLoadingMessage p) (loadingMessageInterval p) (loadingMessageIndex p).
Definition with_isLoading (b : bool) (p : t) : t :=
  mk (guard p) b (isSaving p) (hasError p) (errorMessage p) (data p)
     (currentLoadingMessage p) (loadingMessageInterval p) (loadingMessageIndex p).
Definition with_isSaving (b : bool) (p : t) : t :=
  mk (guard p) (isLoading p) b (hasError p) (errorMessage p) (data p)
     (currentLoadingMessage p) (loadingMessageInterval p) (loadingMessageIndex p).
Definition with_hasError (b : bool) (p : t) : t :=
  mk (guard p) (isLoading p) (isSaving p) b (errorMessage p) (data p)
     (currentLoadingMessage p) (loadingMessageInterval p) (loadingMessageIndex p).
Definition with_errorMessage (m : string) (p : t) : t :=
  mk (guard p) (isLoading p) (isSaving p) (hasError p) m (data p)
     (currentLoadingMessage p) (loadingMessageInterval p) (loadingMessageIndex p).
Definition with_data (d : option Data) (p : t) : t :=
  mk (guard p) (isLoading p) (isSaving p) (hasError p) (errorMessage p) d
     (currentLoadingMessage p) (loadingMessageInterval p) (loadingMessageIndex p).
Definition with_currentLoadingMessage (m : Js.text) (p : t) : t :=
  mk (guard p) (isLoading p) (isSaving p) (hasError p) (errorMessage p) (data p)
     m (loadingMessageInterval p) (loadingMessageIndex p).
Definition with_loadingMessageInterval (h : option nat) (p : t) : t :=
  mk (guard p) (isLoading p) (isSaving p) (hasError p) (errorMessage p) (data p)
     (currentLoadingMessage p) h (loadingMessageIndex p).
Definition with_loadingMessageIndex (i : nat) (p : t) : t :=
  mk (guard p) (isLoading p) (isSaving p) (hasError p) (errorMessage p) (data p)
     (currentLoadingMessage p) (loadingMessageInterval p) i.

(** The panel together with the interval timers of its window: the handles
    that [setInterval] has returned and [clearInterval] has not yet
    cancelled.  Handles are positive and never reused. *)
Record World : Type := mkWorld {
  panel : t;
  next_handle : nat;
  intervals : list nat
}.

Definition boot : World :=
  {| panel := initial; next_handle := 1; intervals := [] |}.

Definition on_panel {A} (m : Eff t A) : Eff World A :=
  fun w =>
    let '(a, p, tr) := m (panel w) in
    (a, mkWorld p (next_handle w) (intervals w), tr).

Definition on_guard {A} (m : Eff Guard.t A) : Eff t A :=
  fun p => let '(a, g, tr) := m (guard p) in (a, with_guard g p, tr).

Definition set_recordId (value : Js.value) : Eff t unit :=
  on_guard (Guard.set_recordId value).
Definition set_accountId (value : Js.value) : Eff t unit :=
  on_guard (Guard.set_accountId value).
Definition set_analysisTrigger (value : Js.value) : Eff t unit :=
  on_guard (Guard.set_analysisTrigger value).
Definition currentAccountId (p : t) : Js.value :=
  Guard.currentAccountId (guard p).

(** [setInterval(callback, ms)] *)
Definition setInterval (cb : Callback) (ms : Z) : Eff World nat :=
  fun w =>
    let h := next_handle w in
    (h, mkWorld (panel w) (Datatypes.S h) (h :: intervals w),
     [SetInterval h cb ms]).

(** [clearInterval(handle)] *)
Definition clearInterval (h : nat) : Eff World unit :=
  fun w =>
    (tt, mkWorld (panel w) (next_handle w)
                 (filter (fun k => negb (k =? h)%nat) (intervals w)),
     [ClearInterval h]).

(** [startLoadingMessages()] *)
Definition startLoadingMessages : Eff World unit :=
  (on_panel (modify (with_loadingMessageIndex 0)) ;;
   on_panel (modify (fun p =>
     with_currentLoadingMessage
       (nth_error loadingMessages (loadingMessageIndex p)) p)) ;;
   h <- setInterval RotateMessage 3000 ;;
   on_panel (modify (with_loadingMessageInterval (Some h))))%eff.

(** The callback given to [setInterval]. *)
Definition rotateMessage : Eff t unit :=
  (modify (fun p =>
     with_loadingMessageIndex
       ((loadingMessageIndex p + 1) mod List.length loadingMessages) p) ;;
   modify (fun p =>
     with_currentLoadingMessage
       (nth_error loadingMessages (loadingMessageIndex p)) p))%eff.

(** One period of the interval [h]: its callback runs if and only if the
    interval has not been cleared. *)
Definition tick (h : nat) : Eff World unit :=
  (w <- get ;;
   if existsb (Nat.eqb h) (intervals w) then on_panel rotateMessage
   else ret tt)%eff.

(** [stopLoadingMessages()] *)
Definition stopLoadingMessages : Eff World unit :=
  (w <- get ;;
   match loadingMessageInterval (panel w) with
   | Some h =>
       if negb (h =? 0)%nat then
         clearInterval h ;;
         on_panel (modify (with_loadingMessageInterval None))
       else ret tt
   | None => ret tt
   end ;;
   on_panel (modify (with_currentLoadingMessage (Some ""))))%eff.

(** [disconnectedCallback()] *)
Definition disconnectedCallback : Eff World unit := stopLoadingMessages.

(** [handleResearch()] up to and including the remote call. *)
Definition handleResearch : Eff World unit :=
  (on_panel (modify (with_isLoading true)) ;;
   on_panel (modify (with_hasError false)) ;;
   on_panel (modify (with_errorMessage "")) ;;
   startLoadingMessages ;;
   w <- get ;;
   let accountIdToUse := currentAccountId (panel w) in
   if negb (Js.truthy accountIdToUse) then
     on_panel (modify (with_hasError true)) ;;
     on_panel (modify (with_errorMessage "No account ID provided.")) ;;
     on_panel (modify (with_isLoading false)) ;;
     stopLoadingMessages
   else emit (Apex (GetCompanyResearch accountIdToUse)))%eff.

(** The [then] callback of the fetch. *)
Definition onFulfilled (result : option Data) : Eff t unit :=
  (modify (with_data result) ;;
   if match result with
      | Some r => negb (Js.truthy_text (overview r))
      | None => true
      end
   then showToast "Info" "No research results returned." "info"
   else ret tt)%eff.

(** The [catch] callback of the fetch. *)
Definition onRejected (error : option JsError) : Eff t unit :=
  (modify (with_hasError true) ;;
   modify (with_errorMessage
     (Js.first_text
        [ match error with Some e => body_message e | None => None end;
          match error with Some e => message e | None => None end ]
        "Unable to research this account.")) ;;
   p <- get ;;
   showToast "Error" (errorMessage p) "error")%eff.

(** The [finally] callback of the fetch. *)
Definition onFinally : Eff World unit :=
  (on_panel (modify (with_isLoading false)) ;;
   stopLoadingMessages)%eff.

Inductive outcome : Type :=
| Fulfilled (result : option Data)
| Rejected (error : option JsError).

Definition settle (o : outcome) : Eff World unit :=
  (on_panel match o with
            | Fulfilled result => onFulfilled result
            | Rejected error => onRejected error
            end ;;
   onFinally)%eff.

(** The timer callbacks that the two setters schedule. *)
Definition fire (cb : Callback) : Eff World unit :=
  match cb with
  | Refresh => handleResearch
  | RefreshIfCurrent value =>
      (w <- get ;;
       if Js.strict_eqb (currentAccountId (panel w)) value then handleResearch
       else ret tt)%eff
  | _ => ret tt
  end.

(** *** Getters *)

Definition hasData (p : t) : bool :=
  match data p with
  | Some _ => negb (isLoading p) && negb (hasError p)
  | None => false
  end.

Definition showEmptyState (p : t) : bool :=
  negb (isLoading p) && negb (hasData p) && negb (hasError p).

Definition hasAnyLink (p : t) : bool :=
  match data p with
  | Some d =>
      match links d with
      | Some l =>
          Js.truthy_text (websiteUrl l) || Js.truthy_text (linkedinUrl l)
          || Js.truthy_text (newsSearchUrl l)
      | None => false
      end
  | None => false
  end.

(** *** Saving the research as HTML *)

(** [escapeHtml(text)] *)
Definition escapeHtml (text : Js.text) : string :=
  if negb (Js.truthy_text text) then ""
  else
    let textNode := Dom.createTextNode (Text.to_string text) in
    let div := Dom.createElement "div" in
    let div := Dom.appendChild div textNode in
    Dom.textContent div.

Definition quote : string := String (ascii_of_nat 34) EmptyString.

(** [<a href="${escapeHtml(href)}" target="_blank" rel="noopener">] *)
Definition anchor_open (href : Js.text) : string :=
  "<a href=" ++ quote ++ escapeHtml href ++ quote
  ++ " target=" ++ quote ++ "_blank" ++ quote
  ++ " rel=" ++ quote ++ "noopener" ++ quote ++ ">".

(** [`<li><strong>${label}:</strong> ${escapeHtml(value)}</li>`] when the
    property is truthy. *)
Definition fact_item (label : string) (value : Js.text) : string :=
  if Js.truthy_text value then
    "<li><strong>" ++ label ++ ":</strong> " ++ escapeHtml value ++ "</li>"
  else "".

Definition snapshot (f : Facts) : string :=
  "<br/><h3>Company Snapshot</h3>" ++ "<ul>"
  ++ fact_item "Industry" (industry f)
  ++ fact_item "Headquarters" (headquarters f)
  ++ (if Js.truthy (foundedYear f) then
        "<li><strong>Founded:</strong> " ++ Js.to_string (foundedYear f)
        ++ "</li>"
      else "")
  ++ fact_item "Employees" (employeeCountRange f)
  ++ fact_item "Key Products" (keyProducts f)
  ++ fact_item "Target Market" (targetMarket f)
  ++ fact_item "Key Executives" (keyExecutives f)
  ++ (if Js.truthy_text (website f) then
        let site := Text.to_string (website f) in
        let websiteUrl :=
          if Js.startsWith site "http" then site else "https://" ++ site in
        "<li><strong>Website:</strong> " ++ anchor_open (Some websiteUrl)
        ++ escapeHtml (website f) ++ "</a></li>"
      else "")
  ++ "</ul>".

Definition recent_news (f : Facts) : string :=
  if Js.truthy_text (recentNews f) then
    "<br/><h3>Recent News</h3>"
    ++ (if Js.truthy_text (recentNewsUrl f) then
          "<p>" ++ anchor_open (recentNewsUrl f)
          ++ escapeHtml (recentNews f) ++ "</a></p>"
        else "<p>" ++ escapeHtml (recentNews f) ++ "</p>")
  else "".

Definition growth (f : Facts) : string :=
  if Js.truthy_text (growthIndicators f) then
    "<br/><h3>Growth Indicators</h3>"
    ++ "<p>" ++ escapeHtml (growthIndicators f) ++ "</p>"
  else "".

Definition link_item (href : Js.text) (label : string) : string :=
  if Js.truthy_text href then
    "<li>" ++ anchor_open href ++ label ++ "</a></li>"
  else "".

Definition quick_links (l : Links) : string :=
  if Js.truthy_text (websiteUrl l) || Js.truthy_text (linkedinUrl l)
     || Js.truthy_text (newsSearchUrl l)
  then
    "<br/><h3>Quick Links</h3>" ++ "<ul>"
    ++ link_item (websiteUrl l) "Company Website"
    ++ link_item (linkedinUrl l) "LinkedIn Profile"
    ++ link_item (newsSearchUrl l) "Recent News"
    ++ "</ul>"
  else "".

(** The body of the [forEach] over the headlines. *)
Definition headline_item (h : option Headline) : string :=
  match h with
  | Some h =>
      if Js.truthy_text (title h) then
        if Js.truthy_text (url h) then
          "<li>" ++ anchor_open (url h) ++ escapeHtml (title h) ++ "</a></li>"
        else "<li>" ++ escapeHtml (title h) ++ "</li>"
      else ""
  | None => ""
  end.

Definition recent_headlines (hs : list (option Headline)) : string :=
  match hs with
  | [] => ""
  | _ =>
      "<br/><h3>Recent Headlines</h3>" ++ "<ul>"
      ++ String.concat "" (map headline_item hs)
      ++ "</ul>"
  end.

(** [formatDataAsHtml()] *)
Definition formatDataAsHtml (p : t) : string :=
  match data p with
  | None => ""
  | Some d =>
      (if Js.truthy_text (overview d) then
         "<h3>Company Overview</h3>" ++ "<p>" ++ escapeHtml (overview d) ++ "</p>"
       else "")
      ++ match facts d with
         | Some f => snapshot f ++ recent_news f ++ growth f
         | None => ""
         end
      ++ match links d with
         | Some l => quick_links l
         | None => ""
         end
      ++ match headlines d with
         | Some hs => recent_headlines hs
         | None => ""
         end
  end.

(** [handleSaveToRecord()] up to and including the remote call. *)
Definition handleSaveToRecord : Eff t unit :=
  (modify (with_isSaving true) ;;
   p <- get ;;
   let htmlContent := formatDataAsHtml p in
   let accountIdToUse := currentAccountId p in
   if negb (Js.truthy accountIdToUse) then
     showToast "Error" "No account ID provided." "error" ;;
     modify (with_isSaving false)
   else emit (Apex (SaveCompanyResearch accountIdToUse htmlContent)))%eff.

(** The [then], [catch] and [finally] callbacks of the save. *)
Definition onSaved (result : string) : Eff t unit :=
  showToast "Success" result "success".

(** [error?.body?.message || error?.message || fallback] *)
Definition error_text (error : option JsError) (fallback : string) : string :=
  Js.first_text
    [ match error with Some e => body_message e | None => None end;
      match error with Some e => message e | None => None end ]
    fallback.

Definition onSaveRejected (error : option JsError) : Eff t unit :=
  let errorMsg := error_text error "Unable to save account research." in
  showToast "Error" errorMsg "error".

Definition onSaveFinally : Eff t unit := modify (with_isSaving false).

Inductive save_outcome : Type :=
| Saved (result : string)
| SaveRejected (error : option JsError).

Definition settle_save (o : save_outcome) : Eff t unit :=
  (match o with
   | Saved result => onSaved result
   | SaveRejected error => onSaveRejected error
   end ;;
   onSaveFinally)%eff.

End Research.

(** ** Measures used to state the properties *)

Module Runs.

Import Guard.

(** The conditions under which the two setters schedule a refresh. *)
Definition trigger_fires (value : Js.value) (g : Guard.t) : bool :=
  Js.truthy value
  && negb (Js.strict_eqb value (previousTrigger g))
  && Js.truthy (currentAccountId g).

Definition account_fires (value : Js.value) (g : Guard.t) : bool :=
  Js.truthy value
  && negb (Js.strict_eqb value (_accountId g))
  && negb (Js.strict_eqb value (previousAccountId g)).

(** Trigger values that a sequence assigns, in order. *)
Definition triggers (l : list assignment) : list Js.value :=
  flat_map (fun a => match a with
                     | SetAnalysisTrigger v => [v]
                     | _ => []
                     end) l.

(** Refreshes that the trigger setter schedules for the value [v] while the
    sequence [l] is applied to a panel whose guard is [g]. *)
Fixpoint refreshes_for (v : Js.value) (l : list assignment) (g : Guard.t) : nat :=
  match l with
  | [] => 0
  | a :: r =>
      (match a with
       | SetAnalysisTrigger w =>
           if Js.strict_eqb w v then trigger_refreshes (trace_of (assign a) g)
           else 0
       | _ => 0
       end
       + refreshes_for v r (state_after (assign a) g))%nat
  end.

(** The order of the shell's triggers: timestamps, compared as numbers. *)
Definition timestamp_le (a b : Js.value) : Prop :=
  match a, b with
  | Js.Num x, Js.Num y => (x <= y)%Z
  | _, _ => False
  end.

Definition is_apex (e : Event) : bool :=
  match e with
  | Apex _ => true
  | _ => false
  end.

(** Remote calls in a trace. *)
Definition remote_calls (tr : list Event) : list Event := filter is_apex tr.

End Runs.

(** The escaping that the specification of the save action asks for: the
    characters that are special in HTML text and attribute values, written
    as character references. *)
Module Spec.

Definition escape_char (c : ascii) : string :=
  if Ascii.eqb c "&" then "&amp;"
  else if Ascii.eqb c "<" then "&lt;"
  else if Ascii.eqb c ">" then "&gt;"
  else if Ascii.eqb c (ascii_of_nat 34) then "&quot;"
  else String c EmptyString.

Fixpoint escape (s : string) : string :=
  match s with
  | EmptyString => EmptyString
  | String c r => escape_char c ++ escape r
  end.

(** [needle] occurs in [hay]. *)
Definition occurs (needle hay : string) : bool :=
  match String.index 0 needle hay with
  | Some _ => true
  | None => false
  end.

End Spec.

(** ** Shell: the account picker *)

Module Picker.

(** [event.detail] of the record picker's change event: the identifier, and
    the record when the picker supplies it, either in the UI-API shape
    ([record.fields.Name.value]) or as a plain object ([record.Name]). *)
Record NameField : Type := { value : Js.value }.

Module Fields.
Record t : Type := { Name : option NameField }.
End Fields.

Module PickedRecord.
Record t : Type := { fields : option Fields.t; Name : Js.value }.
End PickedRecord.

Record Detail : Type := {
  recordId : Js.value;
  record : option PickedRecord.t
}.

Definition set_selectedAccountId (v : Js.value) : Eff Shell.t unit :=
  (modify (fun s => Shell.mk v (Shell.selectedAccountName s)
                             (Shell.isAnalyzing s) (Shell.analysisTrigger s)) ;;
   emit (Assign "selectedAccountId" v))%eff.

Definition set_selectedAccountName (v : Js.value) : Eff Shell.t unit :=
  (modify (fun s => Shell.mk (Shell.selectedAccountId s) v
                             (Shell.isAnalyzing s) (Shell.analysisTrigger s)) ;;
   emit (Assign "selectedAccountName" v))%eff.

(** The name that [handleAccountChange] reads off the event. *)
Definition picked_name (detail : Detail) : Js.value :=
  match record detail with
  | Some r =>
      match PickedRecord.fields r with
      | Some f =>
          (* [record.fields.Name?.value || null] *)
          Js.or (match Fields.Name f with
                 | Some n => value n
                 | None => Js.Undefined
                 end) Js.Null
      | None =>
          if Js.truthy (PickedRecord.Name r) then PickedRecord.Name r
          else Js.Null
      end
  | None => Js.Null
  end.

(** [handleAccountChange(event)].  On an event of this shape nothing in the
    [try] block throws, so the [catch] block does not run. *)
Definition handleAccountChange (now : Z) (detail : Detail) : Eff Shell.t unit :=
  let accountId := recordId detail in
  (if Js.truthy accountId then
     set_selectedAccountId accountId ;;
     set_selectedAccountName (picked_name detail) ;;
     Shell.triggerAnalysis now
   else
     set_selectedAccountId Js.Null ;;
     set_selectedAccountName Js.Null)%eff.

(** [get showEmptyState()] of the shell. *)
Definition showEmptyState (s : Shell.t) : bool :=
  negb (Js.truthy (Shell.selectedAccountId s)).

End Picker.

(** ** Research panel: link buttons *)

Module Links.

(** [window.open(url, target)] *)
Inductive Navigation : Type :=
| WindowOpen (url target : string).

(** [this.data?.links?.field] *)
Definition link (field : Research.Links -> Js.text) (p : Research.t) : Js.text :=
  match Research.data p with
  | Some d =>
      match Research.links d with
      | Some l => field l
      | None => None
      end
  | None => None
  end.

Definition open_link (field : Research.Links -> Js.text) (p : Research.t)
  : list Navigation :=
  if Js.truthy_text (link field p)
  then [WindowOpen (Text.to_string (link field p)) "_blank"]
  else [].

Definition openWebsite : Research.t -> list Navigation :=
  open_link Research.websiteUrl.
Definition openLinkedIn : Research.t -> list Navigation :=
  open_link Research.linkedinUrl.
Definition openNews : Research.t -> list Navigation :=
  open_link Research.newsSearchUrl.

(** [shareToSlack] *)
Definition shareToSlack : Eff Research.t unit :=
  showToast "Success" "Sent successfully to Slack" "success".

End Links.

(** ** Further measures *)

Module Measures.

Import Guard.

(** The trigger values for which the sequence [l] schedules a refresh, in
    order. *)
Fixpoint scheduled_triggers (l : list assignment) (g : Guard.t) : list Js.value :=
  match l with
  | [] => []
  | a :: r =>
      (match a with
       | SetAnalysisTrigger w =>
           repeat w (trigger_refreshes (trace_of (assign a) g))
       | _ => []
       end
       ++ scheduled_triggers r (state_after (assign a) g))%list
  end.

(** The last truthy account identifier that the sequence assigns, [prev]
    when it assigns none. *)
Fixpoint last_account (prev : Js.value) (l : list assignment) : Js.value :=
  match l with
  | [] => prev
  | SetAccountId v :: r => last_account (if Js.truthy v then v else prev) r
  | _ :: r => last_account prev r
  end.

(** No element equals the one before it, [prev] standing before the first. *)
Fixpoint changes_each_time (prev : Js.value) (l : list Js.value) : Prop :=
  match l with
  | [] => True
  | v :: r => v <> prev /\ changes_each_time v r
  end.

(** The number [n], an integer of magnitude below 2^53, as a float. *)
Definition number (n : Z) : float :=
  if (n <? 0)%Z then PrimFloat.opp (PrimFloat.of_uint63 (Uint63.of_Z (- n)))
  else PrimFloat.of_uint63 (Uint63.of_Z n).

(** The health panel that stores the given score. *)
Definition with_score (x : Number.prop) : Health.t :=
  Health.with_healthData
    (Some {| Health.healthStatus := None;
             Health.score := x;
             Health.trend := None;
             Health.keyInsights := [];
             Health.recommendedActions := [] |})
    Health.initial.

(** The integers from [lo], [len] of them. *)
Definition Zrange (lo len : Z) : list Z :=
  map (fun k => (lo + Z.of_nat k)%Z) (seq 0 (Z.to_nat len)).

(** [n] applications of the interval callback. *)
Fixpoint rotations (n : nat) : Eff Research.t unit :=
  match n with
  | O => ret tt
  | Datatypes.S k => (Research.rotateMessage ;; rotations k)%eff
  end.

(** Every character of the string is an ASCII character. *)
Fixpoint ascii_only (s : string) : bool :=
  match s with
  | EmptyString => true
  | String c r => (nat_of_ascii c <? 128)%nat && ascii_only r
  end.

(** No space in the string. *)
Fixpoint spaceless (s : string) : bool :=
  match s with
  | EmptyString => true
  | String c r => negb (Ascii.eqb c " ") && spaceless r
  end.

(** The invariant of the account setter: a truthy stored identifier is
    also the recorded one. *)
Definition account_recorded (g : Guard.t) : Prop :=
  Js.truthy (_accountId g) = true -> previousAccountId g = _accountId g.

(** The health data that the [then] callback builds from a payload. *)
Definition stored_health (r : Health.Result.t) : Health.HealthData :=
  {| Health.healthStatus := Health.Result.healthStatus r;
     Health.score := Health.Result.score r;
     Health.trend := Health.Result.trend r;
     Health.keyInsights :=
       match Health.Result.keyInsights r with Some l => l | None => [] end;
     Health.recommendedActions :=
       match Health.Result.recommendedActions r with Some l => l | None => [] end |}.

(** What is checked of the score [n]. *)
Definition score_check (n : Z) : bool :=
  let p := with_score (Some (number n)) in
  let q := with_score (Some (number (n + 1)%Z)) in
  String.eqb (Health.scoreColor p)
    (if (80 <=? n)%Z then "#4bca81"
     else if (60 <=? n)%Z then "#ffb75d"
     else if (40 <=? n)%Z then "#fe9339"
     else "#ea001e")
  && PrimFloat.leb 0%float (Health.progressDashOffset p)
  && PrimFloat.leb (Health.progressDashOffset p) (Health.progressDashArray p)
  && ((100 <=? n)%Z || PrimFloat.ltb (Health.progressDashOffset q)
                                     (Health.progressDashOffset p)).

(** What is checked of a whole amount that is printed in full. *)
Definition units_check (n : Z) : bool :=
  match Health.formatCurrency (number n) with
  | Some s => String.eqb s ("$" ++ Js.Z_to_string n)
  | None => false
  end.

(** [k] tenths, written with one decimal and a unit suffix. *)
Definition abbreviated (k : Z) (suffix : string) : string :=
  "$" ++ Js.Z_to_string (k / 10)%Z ++ "." ++ Js.Z_to_string (k mod 10)%Z
  ++ suffix.

(** What is checked of [k] hundreds, and of [k] hundred thousands. *)
Definition thousands_check (k : Z) : bool :=
  match Health.formatCurrency (number (100 * k)%Z) with
  | Some s => String.eqb s (abbreviated k "K")
  | None => false
  end.

Definition millions_check (k : Z) : bool :=
  match Health.formatCurrency (number (100000 * k)%Z) with
  | Some s => String.eqb s (abbreviated k "M")
  | None => false
  end.

(** What is checked of the amounts just below a million, and of the
    negative amounts. *)
Definition rounds_up_check (n : Z) : bool :=
  match Health.formatCurrency (number n) with
  | Some s => String.eqb s "$1000.0K"
  | None => false
  end.

(** What is checked of minus [k] millions. *)
Definition negative_millions_check (k : Z) : bool :=
  match Health.formatCurrency (number (- (1000000 * k))%Z) with
  | Some s => String.eqb s ("$" ++ Js.Z_to_string (- (1000000 * k))%Z)
  | None => false
  end.

(** A headline that the list of headlines leaves out: null, or without a
    title. *)
Definition untitled (h : option Research.Headline) : bool :=
  match h with
  | Some h => negb (Js.truthy_text (Research.title h))
  | None => true
  end.

(** A payload with no overview, no facts and no links object, and no
    headline. *)
Definition blank (d : Research.Data) : bool :=
  negb (Js.truthy_text (Research.overview d))
  && match Research.facts d with Some _ => false | None => true end
  && match Research.links d with Some _ => false | None => true end
  && match Research.headlines d with Some (_ :: _) => false | _ => true end.

(** A research panel whose payload links to a website only. *)
Definition linked_panel : Research.t :=
  Research.with_data
    (Some {| Research.overview := None;
             Research.facts := None;
             Research.links :=
               Some {| Research.websiteUrl := Some "https://acme.example";
                       Research.linkedinUrl := Some "";
                       Research.newsSearchUrl := None |};
             Research.headlines := None |})
    Research.initial.

(** The panel [p] showing the loading message of index [k]. *)
Definition showing (k : nat) (p : Research.t) : Research.t :=
  Research.with_currentLoadingMessage
    (nth_error Research.loadingMessages k)
    (Research.with_loadingMessageIndex k p).

(** The toasts of a trace. *)
Definition toasts (tr : list Event) : list Event :=
  filter (fun ev => match ev with ShowToast _ _ _ => true | _ => false end) tr.

(** The payload is an object. *)
Definition present (r : option Research.Data) : bool :=
  match r with Some _ => true | None => false end.

(** The payload is an object with a non-empty overview. *)
Definition has_overview (r : option Research.Data) : bool :=
  match r with
  | Some d => Js.truthy_text (Research.overview d)
  | None => false
  end.

(** Periods of the intervals with the given handles, one after the other. *)
Fixpoint ticks (hs : list nat) : Eff Research.World unit :=
  match hs with
  | [] => ret tt
  | h :: r => (Research.tick h ;; ticks r)%eff
  end.

(** What a link button does for the link [u] of the payload: a window at
    [u] when [u] is a non-empty string, nothing otherwise. *)
Definition opens (u : Js.text) : list Links.Navigation :=
  match u with
  | Some url => if (url =? "")%string then [] else [Links.WindowOpen url "_blank"]
  | None => []
  end.

End Measures.

(** ** Sample states and inputs *)

Module Samples.

(** A panel is given an account and then three analyses at increasing
    times, the second timestamp delivered twice. *)
Definition three_analyses : list Guard.assignment :=
  [ Guard.SetAccountId (Js.Str "001A");
    Guard.SetAnalysisTrigger (Js.Num 0);
    Guard.SetAnalysisTrigger (Js.Num 1700000000000);
    Guard.SetAnalysisTrigger (Js.Num 1700000000500);
    Guard.SetAnalysisTrigger (Js.Num 1700000000500);
    Guard.SetAnalysisTrigger (Js.Num 1700000001000) ].

(** A health payload that carries a soft error. *)
Definition partial_result : Health.Result.t :=
  {| Health.Result.healthStatus := Some "Good";
     Health.Result.score := Some 72%float;
     Health.Result.trend := Some "Stable";
     Health.Result.keyInsights := None;
     Health.Result.recommendedActions := None;
     Health.Result.metrics := None;
     Health.Result.errorMessage := Some "AI insights unavailable" |}.

(** The health panel for account 001A, its fetch in flight. *)
Definition health_loading : Health.t :=
  state_after (Health.set_accountId (Js.Str "001A") ;; Health.handleRefresh)%eff
              Health.initial.

(** The health panel showing an excellent account with 2.5 million of
    closed-won value. *)
Definition excellent_panel : Health.t :=
  Health.with_metrics
    (Some {| Health.closedWonACV := Some 2500000%float;
             Health.closedLostACV := None;
             Health.openCases := Some 2%Z;
             Health.closedCases := Some 5%Z;
             Health.caseCount := Some 7%Z;
             Health.highPriorityOpenCases := None |})
    (Health.with_healthData
       (Some {| Health.healthStatus := Some "Excellent";
                Health.score := Some 85%float;
                Health.trend := Some "Improving";
                Health.keyInsights := [];
                Health.recommendedActions := [] |})
       Health.initial).

(** A research payload whose text is markup. *)
Definition script_research : Research.Data :=
  {| Research.overview := Some "<script>alert(1)</script>";
     Research.facts := None;
     Research.links := None;
     Research.headlines := None |}.

(** The research panel of account 001A, showing [script_research]. *)
Definition research_shown : Research.t :=
  Research.with_data (Some script_research)
    (state_after (Research.set_accountId (Js.Str "001A")) Research.initial).

(** An ordinary research payload. *)
Definition acme : Research.Data :=
  {| Research.overview := Some "Acme makes anvils.";
     Research.facts := None;
     Research.links := None;
     Research.headlines := None |}.

(** What the shell's account selection delivers to the research panel, the
    two timers that it schedules running in order of their delays, and the
    two fetches settling afterwards. *)
Definition overlapping_fetches (o1 o2 : Research.outcome)
  : Eff Research.World unit :=
  (Research.on_panel (Research.set_accountId (Js.Str "001A")) ;;
   Research.on_panel (Research.set_analysisTrigger (Js.Num 1700000000000)) ;;
   Research.fire Refresh ;;
   Research.fire (RefreshIfCurrent (Js.Str "001A")) ;;
   Research.settle o1 ;;
   Research.settle o2)%eff.

End Samples.

(** * Properties *)

Import Samples.

(** Runs a method body on a state given by its fields: computes through the
    effect combinators and the record updates, and stops at the tests on
    JavaScript values and at list and string operations. *)
Ltac run_eff :=
  cbv -[Js.truthy Js.truthy_text Js.strict_eqb Js.or Js.first_text
        Guard.currentAccountId Text.to_string Text.or
        Research.formatDataAsHtml Research.error_text
        String.append List.app List.filter List.existsb
        Nat.eqb Nat.modulo Nat.add].

(** ** JavaScript values *)

Lemma strict_eqb_eq (a b : Js.value) : Js.strict_eqb a b = true <-> a = b.
Proof.
  destruct a, b; simpl; split; intro H; try discriminate; try reflexivity.
  - apply Bool.eqb_prop in H. now subst.
  - injection H as ->. apply Bool.eqb_reflx.
  - apply Z.eqb_eq in H. now subst.
  - injection H as ->. apply Z.eqb_refl.
  - apply String.eqb_eq in H. now subst.
  - injection H as ->. apply String.eqb_refl.
Qed.

Lemma strict_eqb_refl (a : Js.value) : Js.strict_eqb a a = true.
Proof. now apply strict_eqb_eq. Qed.

Lemma strict_eqb_neq (a b : Js.value) : Js.strict_eqb a b = false <-> a <> b.
Proof.
  split.
  - intros H E. apply strict_eqb_eq in E. congruence.
  - intro H. destruct (Js.strict_eqb a b) eqn:E; [|reflexivity].
    apply strict_eqb_eq in E. contradiction.
Qed.

Lemma truthy_or (a b : Js.value) :
  Js.truthy (Js.or a b) = Js.truthy a || Js.truthy b.
Proof. unfold Js.or. destruct (Js.truthy a) eqn:E; simpl; auto. Qed.

(** ** The guard: what each setter does, as one equation *)

Section GuardEquations.

Import Guard Runs.

Lemma set_analysisTrigger_eq (value : Js.value) (g : Guard.t) :
  set_analysisTrigger value g =
  if trigger_fires value g then
    (tt, mk (recordId g) (_accountId g) value value (previousAccountId g),
     [SetTimeout Refresh 0])
  else
    (tt, mk (recordId g) (_accountId g) value (previousTrigger g)
            (previousAccountId g), []).
Proof.
  unfold set_analysisTrigger, trigger_fires, bind, get, modify, emit, ret.
  destruct (Js.truthy value && _ && _); reflexivity.
Qed.

Lemma set_accountId_eq (value : Js.value) (g : Guard.t) :
  set_accountId value g =
  if account_fires value g then
    (tt, mk (recordId g) value (_analysisTrigger g) (previousTrigger g) value,
     [SetTimeout (RefreshIfCurrent value) 100])
  else
    (tt, mk (recordId g) value (_analysisTrigger g) (previousTrigger g)
            (previousAccountId g), []).
Proof.
  unfold set_accountId, account_fires, bind, get, modify, emit, ret.
  destruct (Js.truthy value && _ && _); reflexivity.
Qed.

Lemma set_recordId_eq (value : Js.value) (g : Guard.t) :
  set_recordId value g =
  (tt, mk value (_accountId g) (_analysisTrigger g) (previousTrigger g)
          (previousAccountId g), []).
Proof. reflexivity. Qed.

(** Only the trigger setter writes [previousTrigger]. *)
Lemma previousTrigger_kept (a : assignment) (g : Guard.t) :
  (forall v, a <> SetAnalysisTrigger v) ->
  previousTrigger (state_after (assign a) g) = previousTrigger g.
Proof.
  intro H. destruct a as [v|v|v]; unfold state_after; simpl.
  - reflexivity.
  - rewrite set_accountId_eq. destruct (account_fires v g); reflexivity.
  - now contradiction (H v).
Qed.

(** The trigger setter schedules one refresh or none, and records the
    value exactly when it schedules. *)
Lemma trigger_setter_cases (value : Js.value) (g : Guard.t) :
  (trace_of (set_analysisTrigger value) g = [SetTimeout Refresh 0]
   /\ previousTrigger (state_after (set_analysisTrigger value) g) = value
   /\ trigger_fires value g = true)
  \/
  (trace_of (set_analysisTrigger value) g = []
   /\ previousTrigger (state_after (set_analysisTrigger value) g)
      = previousTrigger g
   /\ trigger_fires value g = false).
Proof.
  unfold trace_of, state_after. rewrite set_analysisTrigger_eq.
  destruct (trigger_fires value g); simpl; auto.
Qed.

Lemma assign_all_cons (a : assignment) (l : list assignment) (g : Guard.t) :
  trace_of (assign_all (a :: l)) g
  = (trace_of (assign a) g
     ++ trace_of (assign_all l) (state_after (assign a) g))%list
  /\ state_after (assign_all (a :: l)) g
     = state_after (assign_all l) (state_after (assign a) g).
Proof.
  unfold trace_of, state_after. simpl. unfold bind.
  destruct (assign a g) as [[u g1] t1]. simpl.
  destruct (assign_all l g1) as [[u' g2] t2]. simpl. auto.
Qed.

Lemma trigger_refreshes_app (t1 t2 : list Event) :
  trigger_refreshes (t1 ++ t2)%list
  = (trigger_refreshes t1 + trigger_refreshes t2)%nat.
Proof. unfold trigger_refreshes. now rewrite filter_app, length_app. Qed.

End GuardEquations.

(** ** Refreshes over a sequence of assignments *)

Section GuardSequences.

Import Guard Runs.

Lemma refreshes_for_absent (v : Js.value) (l : list assignment) (g : Guard.t) :
  ~ In v (triggers l) -> refreshes_for v l g = 0%nat.
Proof.
  revert g. induction l as [|a r IH]; intros g Hin; [reflexivity|].
  simpl. rewrite IH.
  - destruct a as [w|w|w]; try reflexivity.
    destruct (Js.strict_eqb w v) eqn:E; [|reflexivity].
    apply strict_eqb_eq in E. subst w. exfalso. apply Hin. simpl. now left.
  - intro H. apply Hin. simpl. apply in_or_app. now right.
Qed.

Lemma timestamp_le_trans (a b c : Js.value) :
  timestamp_le a b -> timestamp_le b c -> timestamp_le a c.
Proof. destruct a, b, c; simpl; try tauto. lia. Qed.

Lemma timestamp_le_antisym (a b : Js.value) :
  timestamp_le a b -> timestamp_le b a -> a = b.
Proof. destruct a, b; simpl; try tauto. intros. f_equal. lia. Qed.

(** Once [v] is recorded as seen, later assignments of timestamps that are
    not below [v] schedule nothing more for [v]. *)
Lemma refreshes_for_seen (v : Js.value) (l : list assignment) (g : Guard.t) :
  previousTrigger g = v ->
  Forall (timestamp_le v) (triggers l) ->
  StronglySorted timestamp_le (triggers l) ->
  refreshes_for v l g = 0%nat.
Proof.
  revert g. induction l as [|a r IH]; intros g Hprev Hge Hsort; [reflexivity|].
  destruct a as [w|w|w].
  - simpl. apply IH; auto.
  - simpl. apply IH; auto.
    now rewrite (previousTrigger_kept (SetAccountId w)) by congruence.
  - simpl in Hge, Hsort. apply Forall_cons_iff in Hge as [Hvw Hge'].
    apply StronglySorted_inv in Hsort as [Hsort' Hall].
    cbn [refreshes_for].
    destruct (Js.strict_eqb w v) eqn:E.
    + apply strict_eqb_eq in E. subst w. cbn [assign].
      destruct (trigger_setter_cases v g) as [(_ & _ & Hf)|(Ht & Hp & _)].
      * unfold trigger_fires in Hf. rewrite Hprev, strict_eqb_refl in Hf.
        rewrite andb_false_r in Hf. discriminate.
      * rewrite Ht. simpl. apply IH; auto. congruence.
    + simpl. apply refreshes_for_absent.
      intro Hin. rewrite Forall_forall in Hall. specialize (Hall _ Hin).
      apply strict_eqb_neq in E. apply E. symmetry.
      now apply timestamp_le_antisym.
Qed.

(** Over non-decreasing timestamps, every value gets at most one refresh. *)
Lemma refreshes_for_sorted (v : Js.value) (l : list assignment) (g : Guard.t) :
  StronglySorted timestamp_le (triggers l) ->
  (refreshes_for v l g <= 1)%nat.
Proof.
  revert g. induction l as [|a r IH]; intros g Hsort; [simpl; lia|].
  destruct a as [w|w|w]; try (simpl; now apply IH).
  simpl in Hsort. apply StronglySorted_inv in Hsort as [Hsort' Hall].
  cbn [refreshes_for].
  destruct (Js.strict_eqb w v) eqn:E; [|simpl; now apply IH].
  apply strict_eqb_eq in E. subst w. cbn [assign].
  destruct (trigger_setter_cases v g) as [(Ht & Hp & _)|(Ht & _ & _)];
    rewrite Ht.
  - rewrite refreshes_for_seen by auto. simpl. lia.
  - simpl. now apply IH.
Qed.

(** While one trigger value is assigned again and again, whatever else is
    assigned in between, at most one refresh is scheduled. *)
Lemma refreshes_same_value_seen (v : Js.value) (l : list assignment) (g : Guard.t) :
  previousTrigger g = v ->
  Forall (eq v) (triggers l) ->
  trigger_refreshes (trace_of (assign_all l) g) = 0%nat.
Proof.
  revert g. induction l as [|a r IH]; intros g Hprev Hall; [reflexivity|].
  destruct (assign_all_cons a r g) as [-> _]. rewrite trigger_refreshes_app.
  destruct a as [w|w|w].
  - simpl. apply IH; auto.
  - rewrite IH; auto.
    + unfold trace_of. cbn [assign]. rewrite set_accountId_eq.
      destruct (account_fires w g); reflexivity.
    + now rewrite (previousTrigger_kept (SetAccountId w)) by congruence.
  - simpl in Hall. apply Forall_cons_iff in Hall as [Hw Hall']. subst w.
    cbn [assign].
    destruct (trigger_setter_cases v g) as [(_ & _ & Hf)|(Ht & Hp & _)].
    + unfold trigger_fires in Hf. rewrite Hprev, strict_eqb_refl in Hf.
      rewrite andb_false_r in Hf. discriminate.
    + rewrite Ht. simpl. apply IH; auto. congruence.
Qed.

Lemma refreshes_same_value (v : Js.value) (l : list assignment) (g : Guard.t) :
  Forall (eq v) (triggers l) ->
  (trigger_refreshes (trace_of (assign_all l) g) <= 1)%nat.
Proof.
  revert g. induction l as [|a r IH]; intros g Hall; [cbv; lia|].
  destruct (assign_all_cons a r g) as [-> _]. rewrite trigger_refreshes_app.
  destruct a as [w|w|w].
  - simpl. apply IH; auto.
  - assert (trigger_refreshes (trace_of (assign (SetAccountId w)) g) = 0%nat)
      as ->.
    { unfold trace_of. cbn [assign]. rewrite set_accountId_eq.
      destruct (account_fires w g); reflexivity. }
    simpl. apply IH; auto.
  - simpl in Hall. apply Forall_cons_iff in Hall as [Hw Hall']. subst w.
    cbn [assign].
    destruct (trigger_setter_cases v g) as [(Ht & Hp & _)|(Ht & _ & _)];
      rewrite Ht.
    + rewrite (refreshes_same_value_seen v) by auto. simpl. lia.
    + simpl. apply IH; auto.
Qed.

End GuardSequences.

(** ** The guard on each panel *)

Lemma Health_on_guard {A} (m : Eff Guard.t A) (p : Health.t) :
  trace_of (Health.on_guard m) p = trace_of m (Health.guard p)
  /\ Health.guard (state_after (Health.on_guard m) p)
     = state_after m (Health.guard p).
Proof.
  unfold trace_of, state_after, Health.on_guard.
  destruct (m (Health.guard p)) as [[a g] tr]. simpl. auto.
Qed.

Lemma Research_on_guard {A} (m : Eff Guard.t A) (p : Research.t) :
  trace_of (Research.on_guard m) p = trace_of m (Research.guard p)
  /\ Research.guard (state_after (Research.on_guard m) p)
     = state_after m (Research.guard p).
Proof.
  unfold trace_of, state_after, Research.on_guard.
  destruct (m (Research.guard p)) as [[a g] tr]. simpl. auto.
Qed.

(** ** Trigger de-duplication *)

Section TriggerSetter.

Import Guard Runs.

(** C3, as the code has it.  The trigger setter compares the assigned value
    with [previousTrigger], the one value it last scheduled a refresh for.
    So, from every guard state [g] and for every sequence [l] of
    assignments of record id, account id and trigger:
    - when the trigger values of [l] are non-decreasing timestamps (what the
      shell sends), every value [v] gets at most one refresh;
    - when [l] assigns one trigger value only, however often and whatever
      the ids assigned in between, at most one refresh is scheduled;
    - assigning the value that [previousTrigger] holds schedules nothing;
    - assigning a falsy value ([0], [undefined], [null]) schedules nothing. *)
Theorem trigger_refresh_once_per_value :
  (forall (g : Guard.t) (l : list assignment) (v : Js.value),
      Sorted timestamp_le (triggers l) -> (refreshes_for v l g <= 1)%nat)
  /\ (forall (g : Guard.t) (l : list assignment) (v : Js.value),
      Forall (eq v) (triggers l) ->
      (trigger_refreshes (trace_of (assign_all l) g) <= 1)%nat)
  /\ (forall (g : Guard.t) (v : Js.value),
      v = previousTrigger g -> trace_of (set_analysisTrigger v) g = [])
  /\ (forall (g : Guard.t) (v : Js.value),
      Js.truthy v = false -> trace_of (set_analysisTrigger v) g = []).
Proof.
  repeat split.
  - intros g l v Hs. apply refreshes_for_sorted.
    apply Sorted_StronglySorted; [|exact Hs].
    intros a b c. apply timestamp_le_trans.
  - intros g l v. apply refreshes_same_value.
  - intros g v ->.
    destruct (trigger_setter_cases (previousTrigger g) g)
      as [(_ & _ & Hf)|(Ht & _ & _)]; [|exact Ht].
    unfold trigger_fires in Hf. rewrite strict_eqb_refl in Hf.
    rewrite andb_false_r in Hf. discriminate.
  - intros g v Hv.
    destruct (trigger_setter_cases v g) as [(_ & _ & Hf)|(Ht & _ & _)];
      [|exact Ht].
    unfold trigger_fires in Hf. rewrite Hv in Hf. discriminate.
Qed.

Lemma trigger_refresh_once_per_value_witness :
  Sorted timestamp_le (triggers three_analyses)
  /\ refreshes_for (Js.Num 1700000000500) three_analyses Guard.initial = 1%nat
  /\ (refreshes_for (Js.Num 1700000000500) three_analyses Guard.initial <= 1)%nat
  /\ (trigger_refreshes
        (trace_of (assign_all [ SetAnalysisTrigger (Js.Num 7);
                                SetAccountId (Js.Str "001A");
                                SetAnalysisTrigger (Js.Num 7);
                                SetAnalysisTrigger (Js.Num 7) ])
                  Guard.initial) <= 1)%nat
  /\ trace_of (set_analysisTrigger (Js.Num 7))
              (mk Js.Undefined (Js.Str "001A") (Js.Num 7) (Js.Num 7) Js.Null)
     = []
  /\ trace_of (set_analysisTrigger (Js.Num 0))
              (mk Js.Undefined (Js.Str "001A") Js.Null Js.Null Js.Null)
     = [].
Proof.
  assert (Hs : Sorted timestamp_le (triggers three_analyses)).
  { simpl. repeat constructor; simpl; lia. }
  destruct trigger_refresh_once_per_value as (H1 & H2 & H3 & H4).
  split; [exact Hs|].
  split; [reflexivity|].
  split; [apply (H1 Guard.initial three_analyses _ Hs)|].
  split; [apply (H2 Guard.initial _ (Js.Num 7)); simpl; repeat constructor|].
  split; [apply H3; reflexivity|apply H4; reflexivity].
Defined.

(** C3, as stated, fails: the guard remembers one trigger value, so a value
    that comes back after another one is refreshed again.  With an account
    set, the triggers 1000, 2000, 1000 schedule two refreshes for 1000. *)
Lemma trigger_refresh_value_returns :
  let l := [ SetAccountId (Js.Str "001A");
             SetAnalysisTrigger (Js.Num 1000);
             SetAnalysisTrigger (Js.Num 2000);
             SetAnalysisTrigger (Js.Num 1000) ] in
  refreshes_for (Js.Num 1000) l Guard.initial = 2%nat
  /\ ~ (refreshes_for (Js.Num 1000) l Guard.initial <= 1)%nat.
Proof. simpl. split; [reflexivity|]. vm_compute. lia. Qed.

End TriggerSetter.

(** ** Starting a fetch *)

Lemma Health_handleRefresh_eq (p : Health.t) :
  Health.handleRefresh p =
  let id := Health.currentAccountId p in
  if Js.truthy id then
    (tt, Health.mk (Health.guard p) (Health.healthData p) (Health.metrics p)
                   true false "",
     [Apex (GetRelationshipHealth id)])
  else
    (tt, Health.mk (Health.guard p) (Health.healthData p) (Health.metrics p)
                   false true "No account ID provided.", []).
Proof.
  destruct p as [g hd m il he em]. run_eff.
  destruct (Js.truthy (Guard.currentAccountId g)); reflexivity.
Qed.

Lemma Research_handleResearch_call (w : Research.World) :
  let id := Research.currentAccountId (Research.panel w) in
  let p := Research.panel w in
  let h := Research.next_handle w in
  Js.truthy id = true ->
  Research.handleResearch w =
  (tt,
   Research.mkWorld
     (Research.mk (Research.guard p) true (Research.isSaving p) false ""
        (Research.data p) (Some "Researching company with Agentforce...")
        (Some h) 0)
     (S h) (h :: Research.intervals w),
   [SetInterval h RotateMessage 3000; Apex (GetCompanyResearch id)]).
Proof.
  destruct w as [[g il isv he em d cm li ix] nh iv]. run_eff.
  intros ->. reflexivity.
Qed.

(** ** Account identifier changes *)

Section AccountSetter.

Import Guard Runs.

Lemma currentAccountId_after_set (v : Js.value) (g : Guard.t) :
  Js.truthy v = true ->
  currentAccountId (state_after (set_accountId v) g) = v.
Proof.
  intro Hv. unfold state_after. rewrite set_accountId_eq.
  destruct (account_fires v g); simpl;
    unfold currentAccountId, accountId, Js.or; simpl; now rewrite Hv.
Qed.

(** C5.  In every guard state [g] (so after every sequence of earlier
    assignments), assigning a truthy account identifier [v] that differs
    from the stored one and from [previousAccountId] schedules exactly one
    refresh, the timer of 100 ms that refreshes if the identifier is still
    [v]; the trigger fields are not touched.  When that timer runs with
    nothing assigned in between, each panel makes exactly one remote call,
    for [v].  Assigning [v] once more schedules nothing. *)
Theorem account_change_refreshes_once (g : Guard.t) (v : Js.value) :
  Js.truthy v = true ->
  v <> _accountId g ->
  v <> previousAccountId g ->
  let g1 := state_after (set_accountId v) g in
  trace_of (set_accountId v) g = [SetTimeout (RefreshIfCurrent v) 100]
  /\ account_refreshes (trace_of (set_accountId v) g) = 1%nat
  /\ _analysisTrigger g1 = _analysisTrigger g
  /\ previousTrigger g1 = previousTrigger g
  /\ (forall p : Health.t, Health.guard p = g1 ->
        remote_calls (trace_of (Health.fire (RefreshIfCurrent v)) p)
        = [Apex (GetRelationshipHealth v)])
  /\ (forall w : Research.World, Research.guard (Research.panel w) = g1 ->
        remote_calls (trace_of (Research.fire (RefreshIfCurrent v)) w)
        = [Apex (GetCompanyResearch v)])
  /\ trace_of (set_accountId v) g1 = []
  /\ account_refreshes
       (trace_of (assign_all [SetAccountId v; SetAccountId v]) g) = 1%nat.
Proof.
  intros Hv Hold Hprev g1.
  assert (Hf : account_fires v g = true).
  { unfold account_fires. rewrite Hv.
    apply strict_eqb_neq in Hold, Hprev. now rewrite Hold, Hprev. }
  assert (Hcur : currentAccountId g1 = v)
    by (now apply currentAccountId_after_set).
  assert (Hg1 : g1 = mk (recordId g) v (_analysisTrigger g) (previousTrigger g) v).
  { unfold g1, state_after. rewrite set_accountId_eq, Hf. reflexivity. }
  assert (Ht : trace_of (set_accountId v) g = [SetTimeout (RefreshIfCurrent v) 100]).
  { unfold trace_of. rewrite set_accountId_eq, Hf. reflexivity. }
  assert (Hagain : trace_of (set_accountId v) g1 = []).
  { unfold trace_of. rewrite set_accountId_eq. unfold account_fires.
    rewrite Hg1. simpl. rewrite strict_eqb_refl, andb_false_r. reflexivity. }
  repeat split.
  - exact Ht.
  - now rewrite Ht.
  - now rewrite Hg1.
  - now rewrite Hg1.
  - intros p Hp.
    assert (Hc : Health.currentAccountId p = v)
      by (unfold Health.currentAccountId; now rewrite Hp).
    unfold trace_of, Health.fire, bind, get.
    rewrite Hc, strict_eqb_refl, Health_handleRefresh_eq.
    cbv zeta. rewrite Hc, Hv. reflexivity.
  - intros w Hw.
    assert (Hc : Research.currentAccountId (Research.panel w) = v)
      by (unfold Research.currentAccountId; now rewrite Hw).
    unfold trace_of, Research.fire, bind, get.
    rewrite Hc, strict_eqb_refl, Research_handleResearch_call
      by (now rewrite Hc).
    rewrite Hc. reflexivity.
  - exact Hagain.
  - destruct (assign_all_cons (SetAccountId v) [SetAccountId v] g) as [-> _].
    destruct (assign_all_cons (SetAccountId v) []
                (state_after (assign (SetAccountId v)) g)) as [-> _].
    cbn [assign]. fold g1. rewrite Ht, Hagain. reflexivity.
Qed.

Lemma account_change_refreshes_once_witness :
  let g := Guard.initial in
  let v := Js.Str "001A" in
  let g1 := state_after (set_accountId v) g in
  _analysisTrigger g = Js.Null
  /\ trace_of (set_accountId v) g = [SetTimeout (RefreshIfCurrent v) 100]
  /\ trace_of (set_accountId v) g1 = [].
Proof.
  pose proof (account_change_refreshes_once Guard.initial (Js.Str "001A")) as H.
  simpl in H. intros g v g1. split; [reflexivity|].
  destruct H as (H1 & _ & _ & _ & _ & _ & H7 & _);
    [reflexivity|discriminate|discriminate|].
  split; [exact H1|exact H7].
Defined.

End AccountSetter.

(** ** A trigger that arrives before the account *)

Section TriggerBeforeAccount.

Import Guard Runs.

Lemma previousTrigger_kept_all (l : list assignment) (g : Guard.t) :
  triggers l = [] ->
  previousTrigger (state_after (assign_all l) g) = previousTrigger g.
Proof.
  revert g. induction l as [|a r IH]; intros g Hl; [reflexivity|].
  destruct (assign_all_cons a r g) as [_ ->].
  destruct a as [w|w|w]; simpl in Hl; try discriminate.
  - rewrite IH by exact Hl. reflexivity.
  - rewrite IH by exact Hl.
    apply (previousTrigger_kept (SetAccountId w)). congruence.
Qed.

Lemma previousTrigger_other (v : Js.value) (l : list assignment) (g : Guard.t) :
  previousTrigger g <> v ->
  ~ In v (triggers l) ->
  previousTrigger (state_after (assign_all l) g) <> v.
Proof.
  revert g. induction l as [|a r IH]; intros g Hp Hin; [exact Hp|].
  destruct (assign_all_cons a r g) as [_ ->].
  destruct a as [w|w|w]; simpl in Hin.
  - apply IH; assumption.
  - apply IH; [|assumption].
    now rewrite (previousTrigger_kept (SetAccountId w)) by congruence.
  - apply IH; [|tauto]. cbn [assign].
    destruct (trigger_setter_cases w g) as [(_ & -> & _)|(_ & -> & _)];
      [|exact Hp].
    intros ->. tauto.
Qed.

(** C10, as the code has it.  The setter writes [previousTrigger] only in the
    branch that schedules the refresh, and assigning the value that
    [previousTrigger] holds never schedules one.  A truthy trigger [v] that
    is not the recorded one and is assigned while no account identifier
    resolves is stored in [_analysisTrigger], schedules nothing and leaves
    [previousTrigger] as it was; after any assignments of identifiers and of
    other trigger values that make an identifier resolve, assigning the same
    [v] schedules a refresh and only then records [v].  Both panels run this
    setter. *)
Theorem trigger_recorded_only_when_scheduled (g : Guard.t) (v : Js.value) :
  Js.truthy v = true ->
  v <> previousTrigger g ->
  Js.truthy (currentAccountId g) = false ->
  let g1 := state_after (set_analysisTrigger v) g in
  (forall (g' : Guard.t) (w : Js.value),
      previousTrigger (state_after (set_analysisTrigger w) g')
        <> previousTrigger g' ->
      trace_of (set_analysisTrigger w) g' = [SetTimeout Refresh 0])
  /\ (forall g' : Guard.t,
      trace_of (set_analysisTrigger (previousTrigger g')) g' = [])
  /\ trace_of (set_analysisTrigger v) g = []
  /\ _analysisTrigger g1 = v
  /\ previousTrigger g1 = previousTrigger g
  /\ (forall (l : list assignment),
        ~ In v (triggers l) ->
        let g2 := state_after (assign_all l) g1 in
        Js.truthy (currentAccountId g2) = true ->
        trace_of (set_analysisTrigger v) g2 = [SetTimeout Refresh 0]
        /\ previousTrigger (state_after (set_analysisTrigger v) g2) = v)
  /\ (forall p : Health.t,
        trace_of (Health.set_analysisTrigger v) p
        = trace_of (set_analysisTrigger v) (Health.guard p))
  /\ (forall p : Research.t,
        trace_of (Research.set_analysisTrigger v) p
        = trace_of (set_analysisTrigger v) (Research.guard p)).
Proof.
  intros Hv Hnew Hnone g1.
  assert (Hf : trigger_fires v g = false).
  { unfold trigger_fires. rewrite Hnone. apply andb_false_r. }
  assert (Hg1 : g1 = mk (recordId g) (_accountId g) v (previousTrigger g)
                        (previousAccountId g)).
  { unfold g1, state_after. rewrite set_analysisTrigger_eq, Hf. reflexivity. }
  assert (Hlater : forall l, ~ In v (triggers l) ->
             Js.truthy (currentAccountId (state_after (assign_all l) g1)) = true ->
             trigger_fires v (state_after (assign_all l) g1) = true).
  { intros l Hl Hacc. unfold trigger_fires. rewrite Hv, Hacc.
    assert (Hp : previousTrigger (state_after (assign_all l) g1) <> v).
    { apply previousTrigger_other; [|exact Hl]. rewrite Hg1. simpl.
      now apply not_eq_sym. }
    apply not_eq_sym, strict_eqb_neq in Hp. now rewrite Hp. }
  split; [|split; [|split; [|split; [|split; [|split; [|split]]]]]].
  - intros g' w Hchg.
    destruct (trigger_setter_cases w g') as [(Ht & _ & _)|(_ & Hp & _)];
      [exact Ht|contradiction].
  - intro g'.
    destruct (trigger_setter_cases (previousTrigger g') g')
      as [(_ & _ & Hc)|(Ht & _ & _)]; [|exact Ht].
    unfold trigger_fires in Hc. rewrite strict_eqb_refl in Hc.
    rewrite andb_false_r in Hc. discriminate.
  - unfold trace_of. rewrite set_analysisTrigger_eq, Hf. reflexivity.
  - now rewrite Hg1.
  - now rewrite Hg1.
  - intros l Hl g2 Hacc. specialize (Hlater l Hl Hacc).
    destruct (trigger_setter_cases v (state_after (assign_all l) g1))
      as [(Ht & Hp & _)|(_ & _ & Hc)]; [|congruence].
    split; [exact Ht|exact Hp].
  - intro p. apply Health_on_guard.
  - intro p. apply Research_on_guard.
Qed.

Lemma trigger_recorded_only_when_scheduled_witness :
  let v := Js.Num 1700000000000 in
  let g1 := state_after (set_analysisTrigger v) Guard.initial in
  let g2 := state_after (assign_all [SetAccountId (Js.Str "001A")]) g1 in
  trace_of (set_analysisTrigger v) Guard.initial = []
  /\ _analysisTrigger g1 = v
  /\ previousTrigger g1 = Js.Null
  /\ trace_of (set_analysisTrigger v) g2 = [SetTimeout Refresh 0]
  /\ previousTrigger (state_after (set_analysisTrigger v) g2) = v.
Proof.
  intros v g1 g2.
  destruct (trigger_recorded_only_when_scheduled Guard.initial v)
    as (_ & _ & H2 & H3 & H4 & H5 & _);
    [reflexivity|discriminate|reflexivity|].
  split; [exact H2|]. split; [exact H3|]. split; [exact H4|].
  apply (H5 [SetAccountId (Js.Str "001A")]); [|reflexivity].
  simpl. tauto.
Defined.

(** C10, as stated, fails for a trigger value that is already the recorded
    one.  A panel refreshes account 001A on a trigger; the account is then
    cleared, the same trigger value is assigned while no identifier
    resolves (it is stored and schedules nothing), and account 001B is
    assigned: assigning that trigger value once more schedules no
    refresh. *)
Lemma trigger_already_recorded_not_refreshed :
  let v := Js.Num 1700000000000 in
  let g := state_after (assign_all [ SetAccountId (Js.Str "001A");
                                     SetAnalysisTrigger v;
                                     SetAccountId Js.Null ]) Guard.initial in
  let g1 := state_after (set_analysisTrigger v) g in
  let g2 := state_after (set_accountId (Js.Str "001B")) g1 in
  Js.truthy v = true
  /\ Js.truthy (currentAccountId g) = false
  /\ trace_of (set_analysisTrigger v) g = []
  /\ _analysisTrigger g1 = v
  /\ Js.truthy (currentAccountId g2) = true
  /\ trace_of (set_analysisTrigger v) g2 = []
  /\ trace_of (set_analysisTrigger v) g2 <> [SetTimeout Refresh 0].
Proof. repeat split. discriminate. Qed.

End TriggerBeforeAccount.

(** ** Refreshing with no account identifier *)

Section FailFast.
Import Runs.

Lemma Research_handleResearch_no_account (w : Research.World) :
  Js.truthy (Research.currentAccountId (Research.panel w)) = false ->
  let w' := state_after Research.handleResearch w in
  let p := Research.panel w in
  let h := Research.next_handle w in
  Research.panel w' =
    Research.mk (Research.guard p) false (Research.isSaving p) true
      "No account ID provided." (Research.data p) (Some "")
      (if (h =? 0)%nat then Some h else None) 0
  /\ Research.intervals w' =
     (if (h =? 0)%nat then h :: Research.intervals w
      else filter (fun k => negb (k =? h)%nat) (h :: Research.intervals w))
  /\ remote_calls (trace_of Research.handleResearch w) = [].
Proof.
  destruct w as [[g il isv he em d cm li ix] nh iv]. run_eff.
  intros ->. run_eff.
  destruct (nh =? 0)%nat; run_eff; auto.
Qed.

(** C6.  When neither the explicit account identifier nor the inherited
    record identifier is truthy, the refresh routine of each panel ends in
    the local error state: [hasError] is true, [errorMessage] is the fixed
    text, [isLoading] is false again, and no remote call is made (the health
    panel emits nothing at all; the research panel only starts and stops its
    message interval). *)
Theorem refresh_without_account_fails_fast :
  (forall p : Health.t,
      Js.truthy (Guard.accountId (Health.guard p)) = false ->
      Js.truthy (Guard.recordId (Health.guard p)) = false ->
      let p' := state_after Health.handleRefresh p in
      Health.hasError p' = true
      /\ Health.errorMessage p' = "No account ID provided."
      /\ Health.isLoading p' = false
      /\ trace_of Health.handleRefresh p = [])
  /\ (forall w : Research.World,
      Js.truthy (Guard.accountId (Research.guard (Research.panel w))) = false ->
      Js.truthy (Guard.recordId (Research.guard (Research.panel w))) = false ->
      let w' := state_after Research.handleResearch w in
      Research.hasError (Research.panel w') = true
      /\ Research.errorMessage (Research.panel w') = "No account ID provided."
      /\ Research.isLoading (Research.panel w') = false
      /\ remote_calls (trace_of Research.handleResearch w) = []).
Proof.
  split.
  - intros p Ha Hr p'.
    assert (Hc : Js.truthy (Health.currentAccountId p) = false).
    { unfold Health.currentAccountId, Guard.currentAccountId.
      rewrite truthy_or, Ha, Hr. reflexivity. }
    unfold p', state_after, trace_of. rewrite Health_handleRefresh_eq.
    cbv zeta. rewrite Hc. cbn. auto.
  - intros w Ha Hr w'.
    assert (Hc : Js.truthy (Research.currentAccountId (Research.panel w)) = false).
    { unfold Research.currentAccountId, Guard.currentAccountId.
      rewrite truthy_or, Ha, Hr. reflexivity. }
    destruct (Research_handleResearch_no_account w Hc) as (Hp & _ & Ht).
    fold w' in Hp. rewrite Hp. cbn. auto.
Qed.

Lemma refresh_without_account_fails_fast_witness :
  let p' := state_after Health.handleRefresh Health.initial in
  let w' := state_after Research.handleResearch Research.boot in
  (Health.hasError p' = true /\ Health.isLoading p' = false
   /\ trace_of Health.handleRefresh Health.initial = [])
  /\ (Research.hasError (Research.panel w') = true
      /\ Research.isLoading (Research.panel w') = false
      /\ remote_calls (trace_of Research.handleResearch Research.boot) = []).
Proof.
  destruct refresh_without_account_fails_fast as [H1 H2].
  split.
  - destruct (H1 Health.initial) as (A & _ & B & C);
      [reflexivity|reflexivity|]. auto.
  - destruct (H2 Research.boot) as (A & _ & B & C);
      [reflexivity|reflexivity|]. auto.
Defined.
End FailFast.

(** ** A payload with a soft error *)

Section SoftError.

Lemma Health_settle_soft_error (p : Health.t) (r : Health.Result.t) (msg : string) :
  Health.Result.errorMessage r = Some msg ->
  msg <> "" ->
  Health.settle (Health.Fulfilled r) p =
  (tt,
   Health.mk (Health.guard p)
     (Some {| Health.healthStatus := Health.Result.healthStatus r;
              Health.score := Health.Result.score r;
              Health.trend := Health.Result.trend r;
              Health.keyInsights :=
                match Health.Result.keyInsights r with
                | Some l => l
                | None => []
                end;
              Health.recommendedActions :=
                match Health.Result.recommendedActions r with
                | Some l => l
                | None => []
                end |})
     (Health.Result.metrics r) false true msg,
   [ShowToast "Warning" msg "warning"]).
Proof.
  intros He Hm. destruct p as [g hd m il he em]. destruct r; cbn in He.
  subst. run_eff. cbn.
  apply String.eqb_neq in Hm. rewrite Hm. reflexivity.
Qed.

(** C2, as the code has it.  When the fetch resolves with a payload whose
    [errorMessage] is a non-empty string, the handlers dispatch one toast,
    of variant warning, store the health data and the metrics of the
    payload (so [hasData] holds), clear [isLoading] and do set the error
    state: [hasError] becomes true and [errorMessage] the payload's
    message. *)
Theorem soft_error_warns_and_marks_error
    (p : Health.t) (r : Health.Result.t) (msg : string) :
  Health.Result.errorMessage r = Some msg ->
  msg <> "" ->
  let p' := state_after (Health.settle (Health.Fulfilled r)) p in
  trace_of (Health.settle (Health.Fulfilled r)) p
    = [ShowToast "Warning" msg "warning"]
  /\ Health.hasError p' = true
  /\ Health.errorMessage p' = msg
  /\ Health.isLoading p' = false
  /\ Health.metrics p' = Health.Result.metrics r
  /\ (exists d, Health.healthData p' = Some d
        /\ Health.healthStatus d = Health.Result.healthStatus r
        /\ Health.score d = Health.Result.score r
        /\ Health.trend d = Health.Result.trend r)
  /\ Health.hasData p' = true.
Proof.
  intros He Hm p'. unfold p', state_after, trace_of.
  rewrite (Health_settle_soft_error p r msg He Hm). cbn.
  repeat split. eexists. cbn. repeat split.
Qed.

Lemma soft_error_warns_and_marks_error_witness :
  let p' := state_after (Health.settle (Health.Fulfilled partial_result))
                        health_loading in
  trace_of (Health.settle (Health.Fulfilled partial_result)) health_loading
    = [ShowToast "Warning" "AI insights unavailable" "warning"]
  /\ Health.hasError p' = true
  /\ Health.errorMessage p' = "AI insights unavailable".
Proof.
  intro p'.
  destruct (soft_error_warns_and_marks_error health_loading partial_result
              "AI insights unavailable")
    as (A & B & C & _); [reflexivity|discriminate|].
  auto.
Defined.

(** C2, as stated, fails: after a resolved fetch with a soft error,
    [hasError] is true, although it was false while the fetch was in
    flight. *)
Lemma soft_error_sets_hasError :
  Health.hasError health_loading = false
  /\ Js.truthy_text (Health.Result.errorMessage partial_result) = true
  /\ Health.hasError
       (state_after (Health.settle (Health.Fulfilled partial_result))
                    health_loading) = true
  /\ Health.hasError
       (state_after (Health.settle (Health.Fulfilled partial_result))
                    health_loading) <> false.
Proof. repeat split. discriminate. Qed.

End SoftError.

(** ** The Analyze action *)

Section Analyze.

(** C4.  With no account selected, [handleAnalyze] dispatches the error
    toast and returns the shell unchanged.  With an account selected, it
    writes [isAnalyzing] to true, writes [analysisTrigger] once, with the
    timestamp read from the clock, and schedules the 500 ms timer; that
    timer writes [isAnalyzing] back to false and leaves the trigger as it
    is. *)
Theorem handleAnalyze_gated (s : Shell.t) (now : Z) :
  (Js.truthy (Shell.selectedAccountId s) = false ->
     Shell.handleAnalyze now s
     = (tt, s, [ShowToast "Error" "Please select an account first" "error"]))
  /\ (Js.truthy (Shell.selectedAccountId s) = true ->
     let tr := trace_of (Shell.handleAnalyze now) s in
     let s' := state_after (Shell.handleAnalyze now) s in
     tr = [ Assign "isAnalyzing" (Js.Bool true);
            Assign "analysisTrigger" (Js.Num now);
            SetTimeout ResetAnalyzing 500 ]
     /\ Shell.writes_to "analysisTrigger" tr = 1%nat
     /\ s' = Shell.mk (Shell.selectedAccountId s) (Shell.selectedAccountName s)
                      true (Js.Num now)
     /\ state_after (Shell.fire ResetAnalyzing) s'
        = Shell.mk (Shell.selectedAccountId s) (Shell.selectedAccountName s)
                   false (Js.Num now)
     /\ Shell.writes_to "analysisTrigger"
          (trace_of (Shell.fire ResetAnalyzing) s') = 0%nat).
Proof.
  destruct s as [id name busy trig]. split; intro H; cbn in H.
  - run_eff. rewrite H. reflexivity.
  - run_eff. repeat (rewrite H; run_eff). repeat split.
Qed.

Lemma handleAnalyze_gated_witness :
  Shell.handleAnalyze 1700000000000 Shell.initial
  = (tt, Shell.initial,
     [ShowToast "Error" "Please select an account first" "error"])
  /\ Shell.analysisTrigger
       (state_after (Shell.handleAnalyze 1700000000000)
          (Shell.mk (Js.Str "001A") Js.Null false (Js.Num 0)))
     = Js.Num 1700000000000.
Proof.
  split.
  - apply (proj1 (handleAnalyze_gated Shell.initial 1700000000000)).
    reflexivity.
  - destruct (proj2 (handleAnalyze_gated
                       (Shell.mk (Js.Str "001A") Js.Null false (Js.Num 0))
                       1700000000000) eq_refl) as (_ & _ & -> & _).
    reflexivity.
Defined.

End Analyze.

(** ** A save that is rejected *)

Section SaveFailure.

Import Runs.

Lemma Research_settle_save_rejected (q : Research.t) (error : option JsError) :
  Research.settle_save (Research.SaveRejected error) q =
  (tt, Research.with_isSaving false q,
   [ShowToast "Error" (Research.error_text error "Unable to save account research.") "error"]).
Proof. reflexivity. Qed.

Lemma Research_handleSaveToRecord_call (p : Research.t) :
  Js.truthy (Research.currentAccountId p) = true ->
  Research.handleSaveToRecord p =
  (tt, Research.with_isSaving true p,
   [Apex (SaveCompanyResearch (Research.currentAccountId p)
                              (Research.formatDataAsHtml p))]).
Proof.
  intro H. destruct p as [g il isv he em d cm li ix].
  cbv [Research.currentAccountId Research.guard] in H.
  run_eff. rewrite H. reflexivity.
Qed.

(** C9.  A save that reaches the remote call and is rejected dispatches one
    error toast and nothing else; afterwards [data], [hasError],
    [errorMessage] and [isLoading] are what they were before the save
    started and [isSaving] is false.  The rejection handlers change no
    field but [isSaving], in whatever state [q] they run. *)
Theorem save_failure_keeps_research (p : Research.t) (error : option JsError) :
  Js.truthy (Research.currentAccountId p) = true ->
  let p1 := state_after Research.handleSaveToRecord p in
  let p2 := state_after (Research.settle_save (Research.SaveRejected error)) p1 in
  remote_calls (trace_of Research.handleSaveToRecord p)
    = [Apex (SaveCompanyResearch (Research.currentAccountId p)
                                 (Research.formatDataAsHtml p))]
  /\ trace_of (Research.settle_save (Research.SaveRejected error)) p1
     = [ShowToast "Error" (Research.error_text error "Unable to save account research.") "error"]
  /\ Research.data p2 = Research.data p
  /\ Research.hasError p2 = Research.hasError p
  /\ Research.errorMessage p2 = Research.errorMessage p
  /\ Research.isLoading p2 = Research.isLoading p
  /\ Research.isSaving p2 = false
  /\ (forall q : Research.t,
        state_after (Research.settle_save (Research.SaveRejected error)) q
        = Research.with_isSaving false q).
Proof.
  intros H p1 p2. unfold p2, p1, state_after, trace_of.
  rewrite (Research_handleSaveToRecord_call p H).
  cbn [fst snd]. rewrite Research_settle_save_rejected.
  destruct p; repeat split.
Qed.

End SaveFailure.

Lemma save_failure_keeps_research_witness :
  let rejected :=
    Research.settle_save
      (Research.SaveRejected
         (Some {| body_message := Some "Insufficient access"; message := None |})) in
  let p1 := state_after Research.handleSaveToRecord research_shown in
  let p2 := state_after rejected p1 in
  trace_of rejected p1 = [ShowToast "Error" "Insufficient access" "error"]
  /\ Research.data p2 = Some script_research
  /\ Research.hasError p2 = false
  /\ Research.isSaving p1 = true
  /\ Research.isSaving p2 = false.
Proof.
  intros rejected p1 p2.
  destruct (save_failure_keeps_research research_shown
              (Some {| body_message := Some "Insufficient access";
                       message := None |}))
    as (_ & A & B & C & _ & _ & D & _); [reflexivity|].
  split; [exact A|]. split; [exact B|]. split; [exact C|].
  split; [reflexivity|exact D].
Defined.

(** ** Escaping in the saved HTML *)

Section Escaping.

Import Runs.

Lemma append_empty (s : string) : s ++ "" = s.
Proof. induction s as [|c r IH]; simpl; [reflexivity|now rewrite IH]. Qed.

(** C1, evaluated on the code.  [escapeHtml] builds a text node inside a
    [div] and reads the [textContent] of the [div], which is the text it
    put in: the function is the identity on strings.  So the research whose
    overview is a script element is serialised with the element as markup;
    the character references that escaping would give do not occur, and
    this is the HTML that the save action sends. *)
Theorem escapeHtml_returns_text_unchanged :
  (forall s : string, Research.escapeHtml (Some s) = s)
  /\ Research.formatDataAsHtml research_shown
     = "<h3>Company Overview</h3><p><script>alert(1)</script></p>"
  /\ Spec.occurs "<script>" (Research.formatDataAsHtml research_shown) = true
  /\ Spec.occurs "&lt;script&gt;" (Research.formatDataAsHtml research_shown)
     = false
  /\ Spec.escape "<script>alert(1)</script>"
     = "&lt;script&gt;alert(1)&lt;/script&gt;"
  /\ remote_calls (trace_of Research.handleSaveToRecord research_shown)
     = [Apex (SaveCompanyResearch (Js.Str "001A")
                "<h3>Company Overview</h3><p><script>alert(1)</script></p>")].
Proof.
  split; [|repeat split].
  intro s. unfold Research.escapeHtml.
  destruct s as [|c r]; [reflexivity|].
  cbn. now rewrite append_empty.
Qed.

End Escaping.

(** ** Display getters of the health panel *)

Section Getters.

Local Open Scope float_scope.

(** C7.  The getters read [healthData] and [metrics] only.  On a payload
    with score 85, status Excellent and trend Improving they give the star
    emoji, the colour #4bca81, the arrow-up icon and, in binary64
    arithmetic, the offset [2 * Math.PI * 70 * (1 - 0.85)].  A closed-won
    value of 2500000 is formatted as $2.5M, 3500 as $3.5K, 0 or a missing
    value as $0.  With no payload stored every getter returns its default.
    Two panels that store the same payload show the same values. *)
Theorem health_getters_of_payload :
  (forall (p : Health.t) (d : Health.HealthData),
      Health.healthData p = Some d ->
      Health.healthStatus d = Some "Excellent"%string ->
      Health.score d = Some 85 ->
      Health.trend d = Some "Improving"%string ->
      Health.healthEmoji p = "🌟"%string
      /\ Health.scoreColor p = "#4bca81"%string
      /\ Health.trendIcon p = "utility:arrowup"%string
      /\ Health.progressDashOffset p = 2 * Number.PI * 70 * (1 - 0.85))
  /\ (forall (p : Health.t) (m : Health.Metrics),
      Health.metrics p = Some m ->
      (Health.closedWonACV m = Some 2500000 ->
         Health.closedWonACVFormatted p = Some "$2.5M"%string)
      /\ (Health.closedWonACV m = Some 3500 ->
         Health.closedWonACVFormatted p = Some "$3.5K"%string)
      /\ (Health.closedWonACV m = Some 0 ->
         Health.closedWonACVFormatted p = Some "$0"%string)
      /\ (Health.closedWonACV m = None ->
         Health.closedWonACVFormatted p = Some "$0"%string))
  /\ (forall p : Health.t,
      Health.healthData p = None ->
      Health.metrics p = None ->
      Health.healthEmoji p = "❓"%string
      /\ Health.healthStatusClass p = "unknown"%string
      /\ Health.trendIcon p = "utility:forward"%string
      /\ Health.trendClass p = ""%string
      /\ Health.scoreColor p = "#dddbda"%string
      /\ Health.progressDashArray p = 2 * Number.PI * 70
      /\ Health.progressDashOffset p = 2 * Number.PI * 70
      /\ Health.closedWonACVFormatted p = Some "$0"%string
      /\ Health.closedLostACVFormatted p = Some "$0"%string
      /\ Health.caseOpenCount p = 0%Z
      /\ Health.caseClosedCount p = 0%Z
      /\ Health.caseTotalCount p = 0%Z
      /\ Health.caseHighPriorityOpen p = 0%Z
      /\ Health.showHighPriorityWarning p = false
      /\ Health.hasData p = false)
  /\ (forall p q : Health.t,
      Health.healthData p = Health.healthData q ->
      Health.metrics p = Health.metrics q ->
      Health.healthEmoji p = Health.healthEmoji q
      /\ Health.healthStatusClass p = Health.healthStatusClass q
      /\ Health.trendIcon p = Health.trendIcon q
      /\ Health.trendClass p = Health.trendClass q
      /\ Health.scoreColor p = Health.scoreColor q
      /\ Health.progressDashOffset p = Health.progressDashOffset q
      /\ Health.closedWonACVFormatted p = Health.closedWonACVFormatted q
      /\ Health.closedLostACVFormatted p = Health.closedLostACVFormatted q).
Proof.
  split; [|split; [|split]].
  - intros p d Hd Hs Hsc Ht.
    unfold Health.healthEmoji, Health.scoreColor, Health.trendIcon,
      Health.progressDashOffset.
    rewrite Hd, Hs, Hsc, Ht. repeat split.
  - intros p m Hm. unfold Health.closedWonACVFormatted. rewrite Hm.
    repeat split; intros ->; reflexivity.
  - intros p Hd Hm.
    unfold Health.healthEmoji, Health.healthStatusClass, Health.trendIcon,
      Health.trendClass, Health.scoreColor, Health.progressDashOffset,
      Health.closedWonACVFormatted, Health.closedLostACVFormatted,
      Health.caseOpenCount, Health.caseClosedCount, Health.caseTotalCount,
      Health.caseHighPriorityOpen, Health.showHighPriorityWarning,
      Health.caseHighPriorityOpen, Health.count_or_zero, Health.hasData.
    rewrite Hd, Hm. repeat split.
  - intros p q Hd Hm.
    unfold Health.healthEmoji, Health.healthStatusClass, Health.trendIcon,
      Health.trendClass, Health.scoreColor, Health.progressDashOffset,
      Health.progressDashArray,
      Health.closedWonACVFormatted, Health.closedLostACVFormatted.
    rewrite Hd, Hm. repeat split.
Qed.

Lemma health_getters_of_payload_witness :
  (Health.healthEmoji excellent_panel = "🌟"%string
   /\ Health.scoreColor excellent_panel = "#4bca81"%string
   /\ Health.trendIcon excellent_panel = "utility:arrowup"%string
   /\ Health.progressDashOffset excellent_panel
      = 2 * Number.PI * 70 * (1 - 0.85))
  /\ Health.closedWonACVFormatted excellent_panel = Some "$2.5M"%string
  /\ Health.healthEmoji Health.initial = "❓"%string
  /\ Health.scoreColor (Health.with_isLoading true excellent_panel)
     = Health.scoreColor excellent_panel.
Proof.
  destruct health_getters_of_payload as (H1 & H2 & H3 & H4).
  split; [|split; [|split]].
  - apply (H1 excellent_panel _ eq_refl); reflexivity.
  - apply (H2 excellent_panel _ eq_refl). reflexivity.
  - apply (H3 Health.initial); reflexivity.
  - apply (H4 (Health.with_isLoading true excellent_panel) excellent_panel);
      reflexivity.
Defined.

End Getters.

(** ** The loading-message interval *)

Section Ticker.

Import Runs.

(** [finally] of a fetch: the interval whose handle the panel holds is
    cleared, and no other. *)
Lemma Research_settle_intervals (o : Research.outcome) (w : Research.World) :
  let w' := state_after (Research.settle o) w in
  Research.isLoading (Research.panel w') = false
  /\ Research.next_handle w' = Research.next_handle w
  /\ match Research.loadingMessageInterval (Research.panel w) with
     | Some h =>
         if (h =? 0)%nat then
           Research.intervals w' = Research.intervals w
           /\ Research.loadingMessageInterval (Research.panel w') = Some h
         else
           Research.intervals w'
             = filter (fun k => negb (k =? h)%nat) (Research.intervals w)
           /\ Research.loadingMessageInterval (Research.panel w') = None
     | None =>
         Research.intervals w' = Research.intervals w
         /\ Research.loadingMessageInterval (Research.panel w') = None
     end.
Proof.
  destruct w as [[g il isv he em d cm li ix] nh iv].
  destruct o as [[[ov f l hs]|]|e]; destruct li as [h|]; run_eff;
    try destruct (Js.truthy_text ov); run_eff;
    try destruct (h =? 0)%nat; run_eff; auto.
Qed.

Lemma filter_fresh (h : nat) (l : list nat) :
  Forall (fun k => k < h) l ->
  filter (fun k => negb (k =? h)%nat) l = l.
Proof.
  induction 1 as [|k l Hk Hl IH]; [reflexivity|].
  simpl. rewrite IH.
  destruct (Nat.eqb_spec k h); [lia|reflexivity].
Qed.

(** C8, evaluated on the code.  [startLoadingMessages] stores the handle of
    the new interval over the handle it holds, without clearing that one.
    When a second fetch starts before the first has settled, as after an
    account selection, which sets both the account identifier and the
    trigger, the first interval is never cleared: after both fetches have
    settled the panel is not loading and holds no handle, yet interval 1
    is still running, its next period puts a loading message back, and
    [disconnectedCallback] does not stop it either. *)
Theorem overlapping_fetches_leak_interval :
  let run := overlapping_fetches (Research.Fulfilled (Some acme))
                                 (Research.Fulfilled (Some acme)) in
  let w := state_after run Research.boot in
  trace_of run Research.boot
  = [ SetTimeout (RefreshIfCurrent (Js.Str "001A")) 100;
      SetTimeout Refresh 0;
      SetInterval 1 RotateMessage 3000;
      Apex (GetCompanyResearch (Js.Str "001A"));
      SetInterval 2 RotateMessage 3000;
      Apex (GetCompanyResearch (Js.Str "001A"));
      ClearInterval 2 ]
  /\ Research.isLoading (Research.panel w) = false
  /\ Research.loadingMessageInterval (Research.panel w) = None
  /\ Research.intervals w = [1]
  /\ Research.currentLoadingMessage (Research.panel w) = Some ""
  /\ Research.currentLoadingMessage
       (Research.panel (state_after (Research.tick 1) w))
     = Some "Gathering web search results..."
  /\ Research.intervals (state_after Research.disconnectedCallback w) = [1].
Proof. repeat split. Qed.

End Ticker.

(** ** The account picker *)

Section AccountPicker.

Lemma picked_name_null_or_truthy (detail : Picker.Detail) :
  Picker.picked_name detail = Js.Null
  \/ Js.truthy (Picker.picked_name detail) = true.
Proof.
  unfold Picker.picked_name.
  destruct (Picker.record detail) as [r|]; [|now left].
  destruct (Picker.PickedRecord.fields r) as [f|].
  - unfold Js.or.
    destruct (Js.truthy match Picker.Fields.Name f with
                        | Some n => Picker.value n
                        | None => Js.Undefined
                        end) eqn:E; [now right|now left].
  - destruct (Js.truthy (Picker.PickedRecord.Name r)) eqn:E;
      [now right|now left].
Qed.

Lemma handleAccountChange_state (s : Shell.t) (now : Z) (detail : Picker.Detail) :
  state_after (Picker.handleAccountChange now detail) s
  = if Js.truthy (Picker.recordId detail)
    then Shell.mk (Picker.recordId detail) (Picker.picked_name detail)
                  true (Js.Num now)
    else Shell.mk Js.Null Js.Null (Shell.isAnalyzing s) (Shell.analysisTrigger s).
Proof.
  destruct s as [id name busy trig]. destruct detail as [rid rec].
  run_eff. destruct (Js.truthy rid) eqn:H; run_eff;
    repeat (rewrite H; run_eff); reflexivity.
Qed.



(** X2.  Clearing the selection sets identifier and name to null and touches
    neither the trigger nor the busy flag, and schedules nothing; Analyze
    then only reports the error. *)
Theorem clearing_selection_keeps_trigger
    (s : Shell.t) (now later : Z) (detail : Picker.Detail) :
  Js.truthy (Picker.recordId detail) = false ->
  let tr := trace_of (Picker.handleAccountChange now detail) s in
  let s1 := state_after (Picker.handleAccountChange now detail) s in
  s1 = Shell.mk Js.Null Js.Null (Shell.isAnalyzing s) (Shell.analysisTrigger s)
  /\ tr = [Assign "selectedAccountId" Js.Null;
           Assign "selectedAccountName" Js.Null]
  /\ Picker.showEmptyState s1 = true
  /\ Shell.isButtonDisabled s1 = true
  /\ Shell.handleAnalyze later s1
     = (tt, s1, [ShowToast "Error" "Please select an account first" "error"]).
Proof.
  intro H. destruct s as [id name busy trig].
  destruct detail as [rid rec]. cbn in H.
  run_eff. repeat (rewrite H; run_eff). repeat split.
  destruct busy; reflexivity.
Qed.

Lemma clearing_selection_keeps_trigger_witness :
  let detail := {| Picker.recordId := Js.Null; Picker.record := None |} in
  let s := Shell.mk (Js.Str "001A") (Js.Str "Acme") false (Js.Num 1700000000000) in
  state_after (Picker.handleAccountChange 1700000000900 detail) s
  = Shell.mk Js.Null Js.Null false (Js.Num 1700000000000).
Proof.
  intros detail s.
  apply (clearing_selection_keeps_trigger s 1700000000900 0 detail).
  reflexivity.
Defined.

(** X3.  Whatever the event, the stored account name is afterwards null or a
    truthy value: an empty name is never stored. *)
Theorem account_name_null_or_truthy
    (s : Shell.t) (now : Z) (detail : Picker.Detail) :
  let s1 := state_after (Picker.handleAccountChange now detail) s in
  Shell.selectedAccountName s1 = Js.Null
  \/ Js.truthy (Shell.selectedAccountName s1) = true.
Proof.
  cbv zeta. rewrite handleAccountChange_state.
  destruct (Js.truthy (Picker.recordId detail)); cbn.
  - apply picked_name_null_or_truthy.
  - now left.
Qed.

End AccountPicker.

(** ** More on the guard *)

Section GuardMore.

Import Guard Runs Measures.

Lemma scheduled_triggers_changes (l : list assignment) (g : Guard.t) :
  changes_each_time (previousTrigger g) (scheduled_triggers l g).
Proof.
  revert g. induction l as [|a r IH]; intro g; [exact I|].
  cbn [scheduled_triggers]. destruct a as [w|w|w].
  - cbn [app]. rewrite <- (previousTrigger_kept (SetRecordId w) g) by congruence.
    apply IH.
  - cbn [app]. rewrite <- (previousTrigger_kept (SetAccountId w) g) by congruence.
    apply IH.
  - cbn [assign].
    destruct (trigger_setter_cases w g) as [(Ht & Hp & Hf)|(Ht & Hp & _)];
      rewrite Ht.
    + cbn. split.
      * unfold trigger_fires in Hf.
        apply andb_prop in Hf as [Hf _]. apply andb_prop in Hf as [_ Hf].
        apply negb_true_iff in Hf. now apply strict_eqb_neq.
      * rewrite <- Hp at 1. apply IH.
    + cbn. rewrite <- Hp. apply IH.
Qed.

Lemma scheduled_triggers_truthy (l : list assignment) (g : Guard.t) :
  Forall (fun v => Js.truthy v = true) (scheduled_triggers l g).
Proof.
  revert g. induction l as [|a r IH]; intro g; [constructor|].
  cbn [scheduled_triggers]. destruct a as [w|w|w]; try (cbn [app]; apply IH).
  cbn [assign].
  destruct (trigger_setter_cases w g) as [(Ht & _ & Hf)|(Ht & _ & _)];
    rewrite Ht; cbn; [|apply IH].
  constructor; [|apply IH].
  unfold trigger_fires in Hf.
  apply andb_prop in Hf as [Hf _]. now apply andb_prop in Hf as [Hf _].
Qed.

(** X4.  Over every sequence of assignments, the trigger setter never schedules
    two refreshes in a row for the same value, nor one for the value it
    recorded last, nor one for a falsy value. *)
Theorem trigger_refreshes_alternate (l : list assignment) (g : Guard.t) :
  changes_each_time (previousTrigger g) (scheduled_triggers l g)
  /\ Forall (fun v => Js.truthy v = true) (scheduled_triggers l g).
Proof.
  split; [apply scheduled_triggers_changes|apply scheduled_triggers_truthy].
Qed.

Lemma account_recorded_step (a : assignment) (g : Guard.t) :
  account_recorded g ->
  account_recorded (state_after (assign a) g)
  /\ previousAccountId (state_after (assign a) g)
     = last_account (previousAccountId g) [a].
Proof.
  intro Hinv. destruct a as [w|w|w]; unfold state_after; cbn [assign].
  - rewrite set_recordId_eq. split; [exact Hinv|reflexivity].
  - rewrite set_accountId_eq. unfold account_fires, account_recorded in *.
    cbn [last_account].
    destruct (Js.truthy w) eqn:Hw; cbn.
    + destruct (Js.strict_eqb w (_accountId g)) eqn:Ho; cbn.
      * apply strict_eqb_eq in Ho. subst w. split; [intros _|]; now apply Hinv.
      * destruct (Js.strict_eqb w (previousAccountId g)) eqn:Hp; cbn.
        -- apply strict_eqb_eq in Hp. subst w. split; [intros _|]; reflexivity.
        -- split; [intros _|]; reflexivity.
    + split; [|reflexivity]. intro H. congruence.
  - rewrite set_analysisTrigger_eq.
    destruct (trigger_fires w g); cbn; split; try exact Hinv; reflexivity.
Qed.

Lemma last_account_cons (prev : Js.value) (a : assignment) (r : list assignment) :
  last_account prev (a :: r) = last_account (last_account prev [a]) r.
Proof. destruct a; reflexivity. Qed.

Lemma account_recorded_all (l : list assignment) (g : Guard.t) :
  account_recorded g ->
  account_recorded (state_after (assign_all l) g)
  /\ previousAccountId (state_after (assign_all l) g)
     = last_account (previousAccountId g) l.
Proof.
  revert g. induction l as [|a r IH]; intros g Hinv; [split; auto|].
  destruct (assign_all_cons a r g) as [_ ->].
  destruct (account_recorded_step a g Hinv) as [Hinv' Hp].
  destruct (IH _ Hinv') as [H1 H2]. split; [exact H1|].
  rewrite H2, Hp. symmetry. apply last_account_cons.
Qed.

(** X5.  On a panel that has received any sequence of assignments since it was
    created, the account setter schedules a refresh exactly when the value
    is truthy and differs from the last truthy identifier assigned so far:
    re-assigning that identifier schedules nothing, also after the
    identifier has been cleared in between. *)
Theorem account_refresh_iff_new (l : list assignment) (v : Js.value) :
  let g := state_after (assign_all l) Guard.initial in
  previousAccountId g = last_account Js.Null l
  /\ trace_of (set_accountId v) g
     = if Js.truthy v && negb (Js.strict_eqb v (last_account Js.Null l))
       then [SetTimeout (RefreshIfCurrent v) 100]
       else [].
Proof.
  intro g.
  destruct (account_recorded_all l Guard.initial) as [Hinv Hp];
    [intro H; discriminate|].
  fold g in Hinv, Hp. cbn in Hp. split; [exact Hp|].
  unfold trace_of. rewrite set_accountId_eq. unfold account_fires.
  rewrite Hp. unfold account_recorded in Hinv. rewrite Hp in Hinv.
  destruct (Js.truthy v) eqn:Hv; [|reflexivity]. cbn.
  destruct (Js.strict_eqb v (last_account Js.Null l)) eqn:Hl.
  - rewrite andb_false_r. reflexivity.
  - rewrite andb_true_r.
    destruct (Js.strict_eqb v (_accountId g)) eqn:Ho; [|reflexivity].
    apply strict_eqb_eq in Ho. subst v.
    rewrite (Hinv Hv), strict_eqb_refl in Hl. discriminate.
Qed.

(** X6.  Assigning a new account and then a new trigger to a panel with no
    resolvable identifier schedules two refreshes, one by each setter; the
    same two assignments in the other order schedule one, since the trigger
    setter then finds no account. *)
Theorem refreshes_depend_on_order (g : Guard.t) (v t : Js.value) :
  Js.truthy (currentAccountId g) = false ->
  Js.truthy v = true ->
  v <> previousAccountId g ->
  Js.truthy t = true ->
  t <> previousTrigger g ->
  trace_of (assign_all [SetAccountId v; SetAnalysisTrigger t]) g
  = [SetTimeout (RefreshIfCurrent v) 100; SetTimeout Refresh 0]
  /\ trace_of (assign_all [SetAnalysisTrigger t; SetAccountId v]) g
     = [SetTimeout (RefreshIfCurrent v) 100].
Proof.
  intros Hnone Hv Hpa Ht Hpt.
  assert (Hacc : Js.truthy (_accountId g) = false).
  { unfold currentAccountId, accountId in Hnone. rewrite truthy_or in Hnone.
    now apply orb_false_elim in Hnone as [H _]. }
  assert (Hold : Js.strict_eqb v (_accountId g) = false).
  { apply strict_eqb_neq. intros ->. congruence. }
  apply strict_eqb_neq in Hpa, Hpt.
  assert (Hpair : forall a b,
             trace_of (assign_all [a; b]) g
             = (trace_of (assign a) g
                ++ trace_of (assign b) (state_after (assign a) g))%list).
  { intros a b. destruct (assign_all_cons a [b] g) as [-> _].
    destruct (assign_all_cons b [] (state_after (assign a) g)) as [-> _].
    unfold trace_of at 3. cbn. now rewrite app_nil_r. }
  split; rewrite Hpair; cbn [assign]; unfold trace_of, state_after.
  - rewrite set_accountId_eq. unfold account_fires. rewrite Hv, Hold, Hpa.
    cbn [andb negb fst snd]. rewrite set_analysisTrigger_eq.
    unfold trigger_fires, currentAccountId, accountId, Js.or.
    cbn [previousTrigger _accountId recordId]. rewrite Ht, Hpt, Hv, Hv.
    reflexivity.
  - rewrite set_analysisTrigger_eq. unfold trigger_fires.
    rewrite Hnone, andb_false_r. cbn [fst snd].
    rewrite set_accountId_eq. unfold account_fires.
    cbn [previousAccountId _accountId]. rewrite Hv, Hold, Hpa. reflexivity.
Qed.

Lemma refreshes_depend_on_order_witness :
  trace_of (assign_all [SetAccountId (Js.Str "001A");
                        SetAnalysisTrigger (Js.Num 1700000000000)])
           Guard.initial
  = [SetTimeout (RefreshIfCurrent (Js.Str "001A")) 100; SetTimeout Refresh 0]
  /\ trace_of (assign_all [SetAnalysisTrigger (Js.Num 1700000000000);
                           SetAccountId (Js.Str "001A")])
              Guard.initial
     = [SetTimeout (RefreshIfCurrent (Js.Str "001A")) 100].
Proof.
  apply (refreshes_depend_on_order Guard.initial);
    try reflexivity; discriminate.
Defined.

End GuardMore.

(** ** Timers and identifiers on the panels *)

Section PanelTimers.

Import Guard Runs.

Lemma state_after_bind {S A B} (m : Eff S A) (k : A -> Eff S B) (s : S) :
  state_after (bind m k) s = state_after (k (fst (fst (m s)))) (state_after m s).
Proof.
  unfold state_after, bind. destruct (m s) as [[a s1] t1]. cbn.
  destruct (k a s1) as [[b s2] t2]. reflexivity.
Qed.





(** X8.  The explicit account identifier takes precedence over the record
    identifier of the hosting page, and the record identifier alone is
    enough: each panel fetches for [accountId] when it is truthy, otherwise
    for a truthy [recordId]. *)
Theorem fetch_uses_explicit_account_first :
  (forall p : Health.t,
      let g := Health.guard p in
      (Js.truthy (_accountId g) = true ->
         remote_calls (trace_of Health.handleRefresh p)
         = [Apex (GetRelationshipHealth (_accountId g))])
      /\ (Js.truthy (_accountId g) = false -> Js.truthy (recordId g) = true ->
         remote_calls (trace_of Health.handleRefresh p)
         = [Apex (GetRelationshipHealth (recordId g))]))
  /\ (forall w : Research.World,
      let g := Research.guard (Research.panel w) in
      (Js.truthy (_accountId g) = true ->
         remote_calls (trace_of Research.handleResearch w)
         = [Apex (GetCompanyResearch (_accountId g))])
      /\ (Js.truthy (_accountId g) = false -> Js.truthy (recordId g) = true ->
         remote_calls (trace_of Research.handleResearch w)
         = [Apex (GetCompanyResearch (recordId g))])).
Proof.
  split.
  - intros p g. unfold trace_of. rewrite Health_handleRefresh_eq. cbv zeta.
    unfold Health.currentAccountId, currentAccountId, accountId, Js.or.
    fold g. split.
    + intros H. rewrite H, H. reflexivity.
    + intros H H'. rewrite H, H'. reflexivity.
  - intros w g. split.
    + intro H.
      assert (Hc : Research.currentAccountId (Research.panel w) = _accountId g).
      { unfold Research.currentAccountId, currentAccountId, accountId, Js.or.
        fold g. now rewrite H. }
      unfold trace_of.
      rewrite Research_handleResearch_call by (now rewrite Hc).
      rewrite Hc. reflexivity.
    + intros H H'.
      assert (Hc : Research.currentAccountId (Research.panel w) = recordId g).
      { unfold Research.currentAccountId, currentAccountId, accountId, Js.or.
        fold g. now rewrite H. }
      unfold trace_of.
      rewrite Research_handleResearch_call by (now rewrite Hc).
      rewrite Hc. reflexivity.
Qed.

Lemma fetch_uses_explicit_account_first_witness :
  let p := Health.with_guard
             (Guard.mk (Js.Str "001R") (Js.Str "001A") Js.Null Js.Null Js.Null)
             Health.initial in
  let q := Health.with_guard
             (Guard.mk (Js.Str "001R") Js.Null Js.Null Js.Null Js.Null)
             Health.initial in
  remote_calls (trace_of Health.handleRefresh p)
  = [Apex (GetRelationshipHealth (Js.Str "001A"))]
  /\ remote_calls (trace_of Health.handleRefresh q)
     = [Apex (GetRelationshipHealth (Js.Str "001R"))].
Proof.
  intros p q. destruct fetch_uses_explicit_account_first as [H _].
  split.
  - apply (proj1 (H p)). reflexivity.
  - apply (proj2 (H q)); reflexivity.
Defined.

End PanelTimers.

(** ** The health fetch from start to end *)

Section HealthCycle.

Import Runs Measures.

Lemma Health_settle_fulfilled (r : Health.Result.t) (p : Health.t) :
  Health.settle (Health.Fulfilled r) p =
  if Js.truthy_text (Health.Result.errorMessage r) then
    (tt, Health.mk (Health.guard p) (Some (stored_health r))
                   (Health.Result.metrics r) false true
                   (Text.to_string (Health.Result.errorMessage r)),
     [ShowToast "Warning" (Text.to_string (Health.Result.errorMessage r))
                "warning"])
  else
    (tt, Health.mk (Health.guard p) (Some (stored_health r))
                   (Health.Result.metrics r) false (Health.hasError p)
                   (Health.errorMessage p), []).
Proof.
  destruct p as [g hd m il he em]. destruct r as [hs sc tr ki ra me er].
  run_eff. destruct (Js.truthy_text er); reflexivity.
Qed.

Lemma Health_settle_rejected (e : JsError) (p : Health.t) :
  Health.settle (Health.Rejected e) p =
  (tt, Health.mk (Health.guard p) (Health.healthData p) (Health.metrics p)
                 false true "Unable to load relationship health data.",
   [ShowToast "Error"
      ("Failed to load relationship health: "
       ++ Text.to_string (Text.or (body_message e) (message e))) "error"]).
Proof. destruct p as [g hd m il he em]. reflexivity. Qed.

Lemma Health_settle_null (thrown : string) (p : Health.t) :
  Health.settle (Health.FulfilledWithNull thrown) p
  = Health.settle
      (Health.Rejected {| body_message := None; message := Some thrown |}) p.
Proof. reflexivity. Qed.

(** X9.  Whatever state [q] the panel is in when the remote call settles, it
    is afterwards not loading and not in its empty state.  [hasError] is set
    when the call was rejected, when it resolved with null (the [then]
    callback throws, the [catch] callback shows the thrown message) and
    when the payload carries an error message; a payload without one leaves
    [hasError] as it was.  A refresh with a resolvable account makes exactly
    one remote call and leaves the panel loading with the error cleared; so
    when its call settles on the state that the refresh left, [hasError]
    holds exactly in the three cases above. *)
Theorem health_fetch_always_settles (q : Health.t) (o : Health.outcome) :
  let q' := state_after (Health.settle o) q in
  Health.isLoading q' = false
  /\ Health.showEmptyState q' = false
  /\ Health.hasError q'
     = match o with
       | Health.Fulfilled r =>
           Js.truthy_text (Health.Result.errorMessage r) || Health.hasError q
       | Health.FulfilledWithNull _ => true
       | Health.Rejected _ => true
       end
  /\ (forall thrown, o = Health.FulfilledWithNull thrown ->
        Health.healthData q' = Health.healthData q
        /\ trace_of (Health.settle o) q
           = [ShowToast "Error"
                ("Failed to load relationship health: " ++ thrown) "error"])
  /\ (forall p : Health.t,
        Js.truthy (Health.currentAccountId p) = true ->
        q = state_after Health.handleRefresh p ->
        trace_of Health.handleRefresh p
          = [Apex (GetRelationshipHealth (Health.currentAccountId p))]
        /\ Health.isLoading q = true
        /\ Health.hasError q = false
        /\ Health.hasError q'
           = match o with
             | Health.Fulfilled r => Js.truthy_text (Health.Result.errorMessage r)
             | Health.FulfilledWithNull _ => true
             | Health.Rejected _ => true
             end).
Proof.
  intro q'.
  assert (Herr : Health.isLoading q' = false
                 /\ Health.showEmptyState q' = false
                 /\ Health.hasError q'
                    = match o with
                      | Health.Fulfilled r =>
                          Js.truthy_text (Health.Result.errorMessage r)
                          || Health.hasError q
                      | Health.FulfilledWithNull _ => true
                      | Health.Rejected _ => true
                      end).
  { unfold q', state_after. destruct o as [r|thrown|e].
    - rewrite Health_settle_fulfilled.
      destruct (Js.truthy_text (Health.Result.errorMessage r)); cbn;
        repeat split.
    - rewrite Health_settle_null, Health_settle_rejected. cbn.
      repeat split. destruct (Health.healthData q); reflexivity.
    - rewrite Health_settle_rejected. cbn.
      repeat split. destruct (Health.healthData q); reflexivity. }
  destruct Herr as (Hl & He & Hh).
  split; [exact Hl|]. split; [exact He|]. split; [exact Hh|]. split.
  - intros thrown ->. unfold q', state_after, trace_of.
    rewrite Health_settle_null, Health_settle_rejected. split; reflexivity.
  - intros p Hacc Hq.
    assert (Hstart : trace_of Health.handleRefresh p
                     = [Apex (GetRelationshipHealth (Health.currentAccountId p))]
                     /\ Health.isLoading q = true /\ Health.hasError q = false).
    { rewrite Hq. unfold state_after, trace_of.
      rewrite Health_handleRefresh_eq. cbv zeta. rewrite Hacc.
      repeat split. }
    destruct Hstart as (Ht & Hld & Hne).
    split; [exact Ht|]. split; [exact Hld|]. split; [exact Hne|].
    rewrite Hh, Hne. destruct o; [apply orb_false_r|reflexivity|reflexivity].
Qed.

Lemma health_fetch_always_settles_witness :
  let p := state_after (Health.set_accountId (Js.Str "001A")) Health.initial in
  let q := state_after Health.handleRefresh p in
  let q' := state_after (Health.settle (Health.FulfilledWithNull
                           "Cannot read properties of null")) q in
  Health.isLoading q' = false
  /\ Health.hasError q' = true
  /\ trace_of (Health.settle (Health.FulfilledWithNull
                                "Cannot read properties of null")) q
     = [ShowToast "Error"
          "Failed to load relationship health: Cannot read properties of null"
          "error"].
Proof.
  intros p q q'.
  destruct (health_fetch_always_settles q
              (Health.FulfilledWithNull "Cannot read properties of null"))
    as (A & _ & _ & B & C).
  destruct (C p eq_refl eq_refl) as (_ & _ & _ & D).
  destruct (B _ eq_refl) as (_ & E).
  split; [exact A|]. split; [exact D|exact E].
Defined.

(** X10.  A rejected health fetch keeps the health data and metrics of the last
    successful one, so [hasData] still holds next to [hasError].  The toast
    shows the message of the error body when there is one, else the message
    of the error, and the text "undefined" when the error has neither. *)
Theorem health_failure_keeps_data (p : Health.t) (e : JsError) :
  let p' := state_after (Health.settle (Health.Rejected e)) p in
  let shown (detail : string) :=
    [ShowToast "Error" ("Failed to load relationship health: " ++ detail)
               "error"] in
  Health.healthData p' = Health.healthData p
  /\ Health.metrics p' = Health.metrics p
  /\ Health.hasError p' = true
  /\ Health.errorMessage p' = "Unable to load relationship health data."
  /\ (Health.healthData p <> None -> Health.hasData p' = true)
  /\ (forall m, body_message e = Some m -> m <> "" ->
        trace_of (Health.settle (Health.Rejected e)) p = shown m)
  /\ (forall m, Js.truthy_text (body_message e) = false ->
        message e = Some m ->
        trace_of (Health.settle (Health.Rejected e)) p = shown m)
  /\ (Js.truthy_text (body_message e) = false -> message e = None ->
        trace_of (Health.settle (Health.Rejected e)) p = shown "undefined").
Proof.
  intros p' shown. unfold p', state_after, trace_of.
  rewrite Health_settle_rejected. cbn [fst snd].
  repeat split.
  - intro Hd. unfold Health.hasData. cbn.
    destruct (Health.healthData p); [reflexivity|contradiction].
  - intros m Hb Hm. unfold shown, Text.or. rewrite Hb. cbn.
    apply String.eqb_neq in Hm. rewrite Hm. reflexivity.
  - intros m Hb Hm. unfold shown, Text.or. rewrite Hb, Hm. reflexivity.
  - intros Hb Hm. unfold shown, Text.or. rewrite Hb, Hm. reflexivity.
Qed.

Lemma health_failure_keeps_data_witness :
  let e := {| body_message := None; message := None |} in
  let p' := state_after (Health.settle (Health.Rejected e)) excellent_panel in
  Health.hasData p' = true
  /\ Health.hasError p' = true
  /\ trace_of (Health.settle (Health.Rejected e)) excellent_panel
     = [ShowToast "Error" "Failed to load relationship health: undefined"
                  "error"].
Proof.
  intros e p'.
  destruct (health_failure_keeps_data excellent_panel e)
    as (_ & _ & B & _ & A & _ & _ & C).
  split; [apply A; discriminate|]. split; [exact B|].
  apply C; reflexivity.
Defined.

End HealthCycle.

(** ** The score gauge and the currency format over their ranges *)

Section Ranges.

Import Measures.

Local Open Scope Z_scope.

Lemma Zrange_In (lo len n : Z) :
  lo <= n < lo + len -> In n (Zrange lo len).
Proof.
  intro H. unfold Zrange. apply in_map_iff.
  exists (Z.to_nat (n - lo)). split; [lia|].
  apply in_seq. lia.
Qed.

(** A check that holds on every integer of a range holds on each one. *)
Lemma checked_on_range (check : Z -> bool) (lo len : Z) :
  forallb check (Zrange lo len) = true ->
  forall n, lo <= n < lo + len -> check n = true.
Proof.
  intros Hall n Hn. rewrite forallb_forall in Hall.
  apply Hall. now apply Zrange_In.
Qed.

(** X11.  For every integer score from 0 to 100 the colour is green from 80,
    yellow from 60, orange from 40 and red below; the gauge offset lies
    between 0 and the circumference, and it shrinks as the score grows,
    from the whole circumference at 0 to nothing at 100. *)
Theorem score_gauge_over_range (p : Health.t) (d : Health.HealthData) (n : Z) :
  Health.healthData p = Some d ->
  Health.score d = Some (number n) ->
  0 <= n <= 100 ->
  Health.scoreColor p
  = (if 80 <=? n then "#4bca81"%string
     else if 60 <=? n then "#ffb75d"%string
     else if 40 <=? n then "#fe9339"%string
     else "#ea001e"%string)
  /\ PrimFloat.leb 0 (Health.progressDashOffset p) = true
  /\ PrimFloat.leb (Health.progressDashOffset p) (Health.progressDashArray p)
     = true
  /\ (n < 100 ->
      forall q e, Health.healthData q = Some e ->
                  Health.score e = Some (number (n + 1)) ->
                  PrimFloat.ltb (Health.progressDashOffset q)
                                (Health.progressDashOffset p) = true)
  /\ (n = 0 -> Health.progressDashOffset p = Health.progressDashArray p)
  /\ (n = 100 -> Health.progressDashOffset p = 0%float).
Proof.
  intros Hd Hs Hn.
  assert (Hall : forallb score_check (Zrange 0 101) = true)
    by (vm_compute; reflexivity).
  pose proof (checked_on_range _ _ _ Hall n ltac:(lia)) as Hc.
  unfold score_check in Hc.
  assert (Hp : forall (q : Health.t) (e : Health.HealthData) (k : Z),
             Health.healthData q = Some e -> Health.score e = Some (number k) ->
             Health.scoreColor q = Health.scoreColor (with_score (Some (number k)))
             /\ Health.progressDashOffset q
                = Health.progressDashOffset (with_score (Some (number k)))).
  { intros q e k Hq He.
    unfold Health.scoreColor, Health.progressDashOffset,
      Health.progressDashArray. rewrite Hq, He. split; reflexivity. }
  destruct (Hp p d n Hd Hs) as [Hcol Hoff].
  apply andb_prop in Hc as [Hc H4]. apply andb_prop in Hc as [Hc H3].
  apply andb_prop in Hc as [H1 H2]. apply String.eqb_eq in H1.
  rewrite Hcol, Hoff.
  split; [exact H1|]. split; [exact H2|]. split; [exact H3|].
  split; [|split].
  - intros Hlt q e Hq He. destruct (Hp q e (n + 1) Hq He) as [_ ->].
    apply orb_prop in H4 as [H4|H4]; [|exact H4].
    apply Z.leb_le in H4. lia.
  - intros ->. reflexivity.
  - intros ->. reflexivity.
Qed.

Lemma score_gauge_over_range_witness :
  Health.scoreColor excellent_panel = "#4bca81"%string
  /\ PrimFloat.leb (Health.progressDashOffset excellent_panel)
                   (Health.progressDashArray excellent_panel) = true.
Proof.
  destruct (score_gauge_over_range excellent_panel _ 85 eq_refl eq_refl)
    as (A & _ & B & _); [lia|].
  split; [exact A|exact B].
Defined.

Lemma check_formatted (x : float) (s : string) :
  match Health.formatCurrency x with
  | Some r => String.eqb r s
  | None => false
  end = true ->
  Health.formatCurrency x = Some s.
Proof.
  destruct (Health.formatCurrency x) as [r|]; [|discriminate].
  intro H. apply String.eqb_eq in H. now subst.
Qed.

(** X12.  [formatCurrency] prints a whole amount from 1 to 999 as it is, a whole
    number of hundreds from 1000 up to 99900 with one decimal and K, and a
    whole number of hundred thousands from a million up to 99.9 million
    with one decimal and M. *)
Theorem currency_abbreviation :
  (forall n, 1 <= n < 1000 ->
     Health.formatCurrency (number n) = Some ("$" ++ Js.Z_to_string n)%string)
  /\ (forall k, 10 <= k < 1000 ->
     Health.formatCurrency (number (100 * k)) = Some (abbreviated k "K"))
  /\ (forall k, 10 <= k < 1000 ->
     Health.formatCurrency (number (100000 * k)) = Some (abbreviated k "M")).
Proof.
  split; [|split].
  - assert (Hall : forallb units_check (Zrange 1 999) = true)
      by (vm_compute; reflexivity).
    intros n Hn. apply check_formatted.
    apply (checked_on_range _ _ _ Hall n). lia.
  - assert (Hall : forallb thousands_check (Zrange 10 990) = true)
      by (vm_compute; reflexivity).
    intros k Hk. apply check_formatted.
    apply (checked_on_range _ _ _ Hall k). lia.
  - assert (Hall : forallb millions_check (Zrange 10 990) = true)
      by (vm_compute; reflexivity).
    intros k Hk. apply check_formatted.
    apply (checked_on_range _ _ _ Hall k). lia.
Qed.

Lemma currency_abbreviation_witness :
  Health.formatCurrency (number 750) = Some "$750"%string
  /\ Health.formatCurrency (number 12300) = Some "$12.3K"%string
  /\ Health.formatCurrency (number 1200000) = Some "$1.2M"%string.
Proof.
  destruct currency_abbreviation as (A & B & C).
  split; [apply (A 750); lia|].
  split; [apply (B 123); lia|apply (C 12); lia].
Defined.

(** X13.  The thresholds are tested before rounding and on the signed value.  So
    the whole amounts from 999950 to 999999 are printed as $1000.0K, not as
    $1.0M, and a negative amount is never abbreviated: it is printed in
    full, after the dollar sign. *)
Theorem currency_threshold_edges :
  (forall n, 999950 <= n < 1000000 ->
     Health.formatCurrency (number n) = Some "$1000.0K"%string)
  /\ (forall n, -1200 <= n < 0 ->
     Health.formatCurrency (number n) = Some ("$" ++ Js.Z_to_string n)%string)
  /\ (forall k, 1 <= k <= 50 ->
     Health.formatCurrency (number (- (1000000 * k)))
     = Some ("$" ++ Js.Z_to_string (- (1000000 * k)))%string).
Proof.
  split; [|split].
  - assert (Hall : forallb rounds_up_check (Zrange 999950 50) = true)
      by (vm_compute; reflexivity).
    intros n Hn. apply check_formatted.
    apply (checked_on_range _ _ _ Hall n). lia.
  - assert (Hall : forallb units_check (Zrange (-1200) 1200) = true)
      by (vm_compute; reflexivity).
    intros n Hn. apply check_formatted.
    apply (checked_on_range _ _ _ Hall n). lia.
  - assert (Hall : forallb negative_millions_check (Zrange 1 50) = true)
      by (vm_compute; reflexivity).
    intros k Hk. apply check_formatted.
    apply (checked_on_range _ _ _ Hall k). lia.
Qed.

Lemma currency_threshold_edges_witness :
  Health.formatCurrency (number 999999) = Some "$1000.0K"%string
  /\ Health.formatCurrency (number (-5)) = Some "$-5"%string
  /\ Health.formatCurrency (number (-2000000)) = Some "$-2000000"%string.
Proof.
  destruct currency_threshold_edges as (A & B & C).
  split; [apply (A 999999); lia|].
  split; [apply (B (-5)); lia|apply (C 2); lia].
Defined.

End Ranges.

(** ** The style class of a health status *)

Section StatusClass.

Import Measures.

Lemma lower_space (c : ascii) : Ascii.eqb (Text.lower c) " " = Ascii.eqb c " ".
Proof.
  destruct c as [[|] [|] [|] [|] [|] [|] [|] [|]]; reflexivity.
Qed.

Lemma toLowerCase_app (a b : string) :
  Text.toLowerCase (a ++ b) = Text.toLowerCase a ++ Text.toLowerCase b.
Proof. induction a as [|c r IH]; cbn; [reflexivity|now rewrite IH]. Qed.

Lemma spaceless_toLowerCase (a : string) :
  spaceless (Text.toLowerCase a) = spaceless a.
Proof.
  induction a as [|c r IH]; [reflexivity|].
  cbn [Text.toLowerCase spaceless]. now rewrite lower_space, IH.
Qed.

Lemma replace_space_first (a b : string) :
  spaceless a = true ->
  Text.replace_space (a ++ String " " b) = a ++ String "-" b.
Proof.
  induction a as [|c r IH]; intro H; [reflexivity|].
  cbn in H. apply andb_prop in H as [Hc Hr].
  cbn. apply negb_true_iff in Hc. rewrite Hc. now rewrite IH.
Qed.

Lemma replace_space_spaceless (a : string) :
  spaceless a = true -> Text.replace_space a = a.
Proof.
  induction a as [|c r IH]; intro H; [reflexivity|].
  cbn in H. apply andb_prop in H as [Hc Hr].
  cbn. apply negb_true_iff in Hc. rewrite Hc. now rewrite IH.
Qed.

Lemma healthStatusClass_of (p : Health.t) (d : Health.HealthData) (s : string) :
  Health.healthData p = Some d ->
  Health.healthStatus d = Some s ->
  Health.healthStatusClass p
  = if (Text.replace_space (Text.toLowerCase s) =? "")%string then "unknown"
    else Text.replace_space (Text.toLowerCase s).
Proof.
  intros Hd Hs. unfold Health.healthStatusClass. rewrite Hd, Hs.
  unfold Js.first_text. cbn.
  destruct (Text.replace_space (Text.toLowerCase s) =? "")%string; reflexivity.
Qed.

(** X14.  For a status made of ASCII characters, the style class is the
    status in lower case with its first space, and only the first, turned
    into a hyphen; a status without a space is just lowered.  A missing or
    empty status gives "unknown". *)
Theorem status_class_replaces_first_space
    (p : Health.t) (d : Health.HealthData) :
  Health.healthData p = Some d ->
  (forall a b, Health.healthStatus d = Some (a ++ String " " b) ->
     ascii_only (a ++ String " " b) = true ->
     spaceless a = true ->
     Health.healthStatusClass p
     = Text.toLowerCase a ++ String "-" (Text.toLowerCase b))
  /\ (forall c a, Health.healthStatus d = Some (String c a) ->
     ascii_only (String c a) = true ->
     spaceless (String c a) = true ->
     Health.healthStatusClass p = Text.toLowerCase (String c a))
  /\ (Health.healthStatus d = Some "" \/ Health.healthStatus d = None ->
     Health.healthStatusClass p = "unknown").
Proof.
  intro Hd. split; [|split].
  - intros a b Hs _ Ha. rewrite (healthStatusClass_of p d _ Hd Hs).
    rewrite toLowerCase_app. cbn [Text.toLowerCase].
    replace (Text.lower " ") with " "%char by reflexivity.
    rewrite replace_space_first by (now rewrite spaceless_toLowerCase).
    destruct (Text.toLowerCase a); reflexivity.
  - intros c a Hs _ Ha. rewrite (healthStatusClass_of p d _ Hd Hs).
    rewrite replace_space_spaceless by (now rewrite spaceless_toLowerCase).
    reflexivity.
  - intros [Hs|Hs].
    + now rewrite (healthStatusClass_of p d _ Hd Hs).
    + unfold Health.healthStatusClass. now rewrite Hd, Hs.
Qed.

Lemma status_class_replaces_first_space_witness :
  let shows (s : string) :=
    Health.with_healthData
      (Some {| Health.healthStatus := Some s; Health.score := None;
               Health.trend := None; Health.keyInsights := [];
               Health.recommendedActions := [] |}) Health.initial in
  Health.healthStatusClass (shows "At Risk") = "at-risk"
  /\ Health.healthStatusClass (shows "Very At Risk") = "very-at risk"
  /\ Health.healthStatusClass (shows "Excellent") = "excellent".
Proof.
  intro shows.
  split; [|split].
  - apply (proj1 (status_class_replaces_first_space (shows "At Risk") _ eq_refl)
             "At" "Risk"); reflexivity.
  - apply (proj1 (status_class_replaces_first_space (shows "Very At Risk") _
                    eq_refl) "Very" "At Risk"); reflexivity.
  - apply (proj1 (proj2 (status_class_replaces_first_space (shows "Excellent") _
                           eq_refl)) "E"%char "xcellent"); reflexivity.
Defined.

End StatusClass.

(** ** The research fetch from start to end *)

Section ResearchCycle.

Import Runs Measures.

Lemma rotateMessage_eq (p : Research.t) :
  Research.rotateMessage p =
  (tt,
   Research.with_currentLoadingMessage
     (nth_error Research.loadingMessages ((Research.loadingMessageIndex p + 1) mod 6))
     (Research.with_loadingMessageIndex
        ((Research.loadingMessageIndex p + 1) mod 6) p), []).
Proof. destruct p. reflexivity. Qed.

Lemma rotations_succ (n : nat) (p : Research.t) :
  state_after (rotations (S n)) p
  = state_after (rotations n) (state_after Research.rotateMessage p).
Proof.
  unfold state_after. cbn [rotations]. unfold bind.
  rewrite rotateMessage_eq.
  destruct (rotations n _) as [[u q] tr]. reflexivity.
Qed.

Lemma rotations_state (n : nat) (p : Research.t) :
  state_after (rotations (S n)) p
  = showing ((Research.loadingMessageIndex p + S n) mod 6) p.
Proof.
  revert p. induction n as [|n IH]; intro p.
  - rewrite rotations_succ. unfold state_after.
    cbn [rotations ret fst snd]. rewrite rotateMessage_eq. reflexivity.
  - rewrite rotations_succ, IH.
    assert (Hidx : Research.loadingMessageIndex
                     (state_after Research.rotateMessage p)
                   = (Research.loadingMessageIndex p + 1) mod 6).
    { unfold state_after. rewrite rotateMessage_eq. destruct p. reflexivity. }
    rewrite Hidx, Nat.Div0.add_mod_idemp_l.
    replace (Research.loadingMessageIndex p + 1 + S n)
      with (Research.loadingMessageIndex p + S (S n)) by lia.
    generalize ((Research.loadingMessageIndex p + S (S n)) mod 6) as k.
    intro k. unfold state_after. rewrite rotateMessage_eq.
    destruct p. reflexivity.
Qed.

Lemma showing_fields (k : nat) (p : Research.t) :
  Research.currentLoadingMessage (showing k p)
  = nth_error Research.loadingMessages k
  /\ Research.loadingMessageIndex (showing k p) = k.
Proof. destruct p. split; reflexivity. Qed.

(** X15.  The loading messages go round.  After [n >= 1] periods of the
    interval the index is the old one plus [n], modulo six, the message
    shown is the entry of [loadingMessages] at that new index, always a
    string, and no other field of the panel has changed; six more periods
    give the same state again. *)
Theorem loading_messages_cycle (n : nat) (p : Research.t) :
  n <> 0 ->
  let p' := state_after (rotations n) p in
  let k := (Research.loadingMessageIndex p + n) mod 6 in
  p' = Research.mk (Research.guard p) (Research.isLoading p)
         (Research.isSaving p) (Research.hasError p) (Research.errorMessage p)
         (Research.data p) (nth_error Research.loadingMessages k)
         (Research.loadingMessageInterval p) k
  /\ (exists s, Research.currentLoadingMessage p' = Some s
               /\ nth_error Research.loadingMessages
                    (Research.loadingMessageIndex p') = Some s)
  /\ state_after (rotations (n + 6)) p = p'.
Proof.
  intros Hn p' k. destruct n as [|n]; [contradiction|].
  assert (Hp : p' = showing k p) by apply rotations_state.
  assert (Hk : k < 6) by (apply Nat.mod_upper_bound; discriminate).
  split; [|split].
  - rewrite Hp. destruct p. reflexivity.
  - rewrite Hp. destruct (showing_fields k p) as [-> ->].
    destruct (nth_error Research.loadingMessages k) as [s|] eqn:E.
    + exists s. split; reflexivity.
    + apply nth_error_None in E.
      change (List.length Research.loadingMessages) with 6 in E. lia.
  - rewrite Hp. cbn [Nat.add]. rewrite rotations_state. f_equal.
    unfold k. replace (Research.loadingMessageIndex p + S (n + 6))
      with (Research.loadingMessageIndex p + S n + 6) by lia.
    rewrite <- Nat.Div0.add_mod_idemp_r. change (6 mod 6) with 0.
    now rewrite Nat.add_0_r.
Qed.

Lemma loading_messages_cycle_witness :
  let p := state_after (rotations 7) Research.initial in
  Research.loadingMessageIndex p = 1
  /\ Research.currentLoadingMessage p = Some "Gathering web search results..."
  /\ state_after (rotations 13) Research.initial = p.
Proof.
  intro p.
  destruct (loading_messages_cycle 7 Research.initial) as (Hs & _ & Hc);
    [discriminate|].
  fold p in Hs, Hc. split; [|split].
  - rewrite Hs. reflexivity.
  - rewrite Hs. reflexivity.
  - exact Hc.
Defined.

Lemma error_text_cases (e : option JsError) (dflt : string) :
  Research.error_text e dflt
  = match e with
    | Some err =>
        if Js.truthy_text (body_message err)
        then Text.to_string (body_message err)
        else if Js.truthy_text (message err)
             then Text.to_string (message err)
             else dflt
    | None => dflt
    end.
Proof.
  unfold Research.error_text, Js.first_text.
  destruct e as [[b m]|]; [|reflexivity]. cbn.
  destruct b as [b|]; destruct m as [m|]; cbn;
    try destruct (b =? "")%string; try destruct (m =? "")%string; reflexivity.
Qed.

Lemma Research_settle_rejected_panel (e : option JsError) (w : Research.World) :
  let msg := Research.error_text e "Unable to research this account." in
  let p := Research.panel w in
  let w' := state_after (Research.settle (Research.Rejected e)) w in
  Research.data (Research.panel w') = Research.data p
  /\ Research.hasError (Research.panel w') = true
  /\ Research.errorMessage (Research.panel w') = msg
  /\ Research.isLoading (Research.panel w') = false
  /\ Research.guard (Research.panel w') = Research.guard p
  /\ filter (fun ev => negb (Guard.is_timeout (fun _ => true) ev))
        (trace_of (Research.settle (Research.Rejected e)) w)
     = (ShowToast "Error" msg "error"
        :: match Research.loadingMessageInterval p with
           | Some h => if (h =? 0)%nat then [] else [ClearInterval h]
           | None => []
           end)%list.
Proof.
  destruct w as [[g il isv he em d cm li ix] nh iv].
  destruct li as [h|]; run_eff; try destruct (h =? 0)%nat; run_eff;
    repeat split.
Qed.

(** X17.  A rejected research fetch puts the panel in error with the message of
    the error body, else the message of the error, else a fixed text; the
    toast shows the same message.  The research data of an earlier fetch
    stays stored, but [hasData] is false, so the panel does not show it. *)
Theorem research_failure_hides_data (e : option JsError) (w : Research.World) :
  let w' := state_after (Research.settle (Research.Rejected e)) w in
  let msg :=
    match e with
    | Some err =>
        if Js.truthy_text (body_message err)
        then Text.to_string (body_message err)
        else if Js.truthy_text (message err)
             then Text.to_string (message err)
             else "Unable to research this account."
    | None => "Unable to research this account."
    end in
  Research.hasError (Research.panel w') = true
  /\ Research.errorMessage (Research.panel w') = msg
  /\ In (ShowToast "Error" msg "error")
        (trace_of (Research.settle (Research.Rejected e)) w)
  /\ Research.isLoading (Research.panel w') = false
  /\ Research.data (Research.panel w') = Research.data (Research.panel w)
  /\ Research.hasData (Research.panel w') = false
  /\ Research.showEmptyState (Research.panel w') = false.
Proof.
  intros w' msg.
  destruct (Research_settle_rejected_panel e w) as (Hd & He & Hm & Hl & _ & Ht).
  fold w' in Hd, He, Hm, Hl. rewrite error_text_cases in Hm, Ht. fold msg in Hm, Ht.
  split; [exact He|]. split; [exact Hm|]. split.
  - assert (Hin : In (ShowToast "Error" msg "error")
                     (filter (fun ev => negb (Guard.is_timeout (fun _ => true) ev))
                        (trace_of (Research.settle (Research.Rejected e)) w)))
      by (rewrite Ht; now left).
    now apply filter_In in Hin.
  - split; [exact Hl|]. split; [exact Hd|].
    unfold Research.showEmptyState, Research.hasData. rewrite He, Hl.
    destruct (Research.data (Research.panel w')); split; reflexivity.
Qed.

Lemma Research_settle_fulfilled_panel (r : option Research.Data) (w : Research.World) :
  let p := Research.panel w in
  let w' := state_after (Research.settle (Research.Fulfilled r)) w in
  Research.panel w'
  = Research.mk (Research.guard p) false (Research.isSaving p)
      (Research.hasError p) (Research.errorMessage p) r (Some "")
      (match Research.loadingMessageInterval p with
       | Some h => if (h =? 0)%nat then Some h else None
       | None => None
       end)
      (Research.loadingMessageIndex p)
  /\ toasts (trace_of (Research.settle (Research.Fulfilled r)) w)
     = if has_overview r then []
       else [ShowToast "Info" "No research results returned." "info"].
Proof.
  destruct w as [[g il isv he em d0 cm li ix] nh iv].
  destruct r as [[ov f l hs]|]; destruct li as [h|]; run_eff;
    try destruct (Js.truthy_text ov); run_eff;
    try destruct (h =? 0)%nat; run_eff; split; reflexivity.
Qed.

(** X18.  When a research fetch resolves, whatever state the panel is in, the
    payload is stored as it is, the panel stops loading and clears its
    loading message, and [hasError] stays as it was: the [then] callback
    never clears it.  One info toast is shown when the payload is null or
    has no overview, none otherwise.  So afterwards [hasData] holds
    exactly when the payload is an object and [hasError] was false, and the
    panel is in its empty state exactly when the payload is null and
    [hasError] was false.  When the call resolves on the state that a
    refresh with a resolvable account left, [hasError] is false. *)
Theorem research_success_stores_payload (w : Research.World) (r : option Research.Data) :
  let p := Research.panel w in
  let p' := Research.panel (state_after (Research.settle (Research.Fulfilled r)) w) in
  Research.data p' = r
  /\ Research.hasError p' = Research.hasError p
  /\ Research.isLoading p' = false
  /\ Research.currentLoadingMessage p' = Some ""
  /\ toasts (trace_of (Research.settle (Research.Fulfilled r)) w)
     = (if has_overview r then []
        else [ShowToast "Info" "No research results returned." "info"])
  /\ Research.hasData p' = present r && negb (Research.hasError p)
  /\ Research.showEmptyState p' = negb (present r) && negb (Research.hasError p)
  /\ (forall w0 : Research.World,
        Js.truthy (Research.currentAccountId (Research.panel w0)) = true ->
        w = state_after Research.handleResearch w0 ->
        Research.hasError p' = false
        /\ Research.hasData p' = present r
        /\ Research.showEmptyState p' = negb (present r)).
Proof.
  intros p p'.
  destruct (Research_settle_fulfilled_panel r w) as [Hp Ht].
  fold p in Hp. fold p' in Hp.
  assert (Hd : Research.hasData p' = present r && negb (Research.hasError p)).
  { rewrite Hp. unfold Research.hasData. cbn. destruct r; reflexivity. }
  assert (He : Research.showEmptyState p'
               = negb (present r) && negb (Research.hasError p)).
  { unfold Research.showEmptyState. rewrite Hd. rewrite Hp. cbn.
    destruct r, (Research.hasError p); reflexivity. }
  split; [now rewrite Hp|]. split; [now rewrite Hp|].
  split; [now rewrite Hp|]. split; [now rewrite Hp|].
  split; [exact Ht|]. split; [exact Hd|]. split; [exact He|].
  intros w0 Hacc Hw.
  assert (Hne : Research.hasError p = false).
  { unfold p. rewrite Hw. unfold state_after.
    rewrite (Research_handleResearch_call w0 Hacc). reflexivity. }
  rewrite Hd, He, Hne, !andb_true_r.
  split; [|split; reflexivity]. rewrite Hp. exact Hne.
Qed.

Lemma research_success_stores_payload_witness :
  let w0 := state_after (Research.on_panel (Research.set_accountId (Js.Str "001A")))
                        Research.boot in
  let w := state_after Research.handleResearch w0 in
  let p' := Research.panel
              (state_after (Research.settle (Research.Fulfilled None)) w) in
  Research.showEmptyState p' = true
  /\ Research.hasError p' = false
  /\ toasts (trace_of (Research.settle (Research.Fulfilled None)) w)
     = [ShowToast "Info" "No research results returned." "info"].
Proof.
  intros w0 w p'.
  destruct (research_success_stores_payload w None)
    as (_ & _ & _ & _ & T & _ & _ & A).
  destruct (A w0 eq_refl eq_refl) as (B & _ & C).
  split; [exact C|]. split; [exact B|exact T].
Defined.

End ResearchCycle.

(** ** A research fetch that runs alone *)

Section LoneFetch.

Import Runs Measures.

Lemma tick_keeps (h : nat) (w : Research.World) :
  let w' := state_after (Research.tick h) w in
  Research.intervals w' = Research.intervals w
  /\ Research.next_handle w' = Research.next_handle w
  /\ Research.loadingMessageInterval (Research.panel w')
     = Research.loadingMessageInterval (Research.panel w).
Proof.
  destruct w as [[g il isv he em d cm li ix] nh iv]. run_eff.
  destruct (existsb (Nat.eqb h) iv); repeat split.
Qed.

Lemma ticks_keep (hs : list nat) (w : Research.World) :
  let w' := state_after (ticks hs) w in
  Research.intervals w' = Research.intervals w
  /\ Research.next_handle w' = Research.next_handle w
  /\ Research.loadingMessageInterval (Research.panel w')
     = Research.loadingMessageInterval (Research.panel w).
Proof.
  revert w. induction hs as [|h r IH]; intro w; [repeat split|].
  cbv zeta. cbn [ticks]. rewrite state_after_bind.
  destruct (IH (state_after (Research.tick h) w)) as (A & B & C).
  destruct (tick_keeps h w) as (A' & B' & C').
  rewrite A, B, C. auto.
Qed.

(** X16.  A fetch that runs alone, in a window whose handles are positive and
    fresh.  It either fails fast for want of an account, or it makes its
    call, any number of interval periods pass, and the call settles, in
    either way, with no other fetch or action of the panel in between.
    Afterwards the intervals are those that ran before the fetch started,
    the panel holds no handle, and it is not loading. *)
Lemma lone_fetch_stops_ticker
    (o : Research.outcome) (hs : list nat) (w : Research.World) :
  Research.next_handle w <> 0 ->
  Forall (fun k => k < Research.next_handle w) (Research.intervals w) ->
  let w1 := state_after Research.handleResearch w in
  let w2 := if Js.truthy (Research.currentAccountId (Research.panel w))
            then state_after (Research.settle o) (state_after (ticks hs) w1)
            else w1 in
  Research.intervals w2 = Research.intervals w
  /\ Research.loadingMessageInterval (Research.panel w2) = None
  /\ Research.isLoading (Research.panel w2) = false.
Proof.
  intros Hnz Hfresh w1 w2.
  destruct (Js.truthy (Research.currentAccountId (Research.panel w))) eqn:E.
  - pose proof (Research_settle_intervals o (state_after (ticks hs) w1))
      as (Hl & _ & Hi).
    fold w2 in Hl, Hi.
    destruct (ticks_keep hs w1) as (Hti & _ & Hth). rewrite Hti, Hth in Hi.
    unfold w1, state_after in Hi.
    rewrite (Research_handleResearch_call w E) in Hi. cbn in Hi.
    apply Nat.eqb_neq in Hnz. rewrite Hnz in Hi. rewrite Nat.eqb_refl in Hi.
    cbn in Hi. destruct Hi as [Hi Hh]. rewrite Hi.
    split; [now apply filter_fresh|]. split; [exact Hh|exact Hl].
  - destruct (Research_handleResearch_no_account w E) as (Hp & Hi & _).
    fold w1 in Hp, Hi. unfold w2.
    apply Nat.eqb_neq in Hnz. rewrite Hnz in Hp, Hi.
    rewrite Hi, Hp. cbn. rewrite Nat.eqb_refl. cbn.
    split; [now apply filter_fresh|]. auto.
Qed.

Lemma lone_fetch_stops_ticker_witness :
  let w := state_after (Research.on_panel (Research.set_accountId (Js.Str "001A")))
                       Research.boot in
  let w2 := state_after (Research.settle (Research.Rejected None))
              (state_after (ticks [1; 1])
                 (state_after Research.handleResearch w)) in
  Research.intervals w2 = []
  /\ Research.loadingMessageInterval (Research.panel w2) = None.
Proof.
  intros w w2.
  assert (Hn : Research.next_handle w <> 0) by discriminate.
  assert (Hf : Forall (fun k => k < Research.next_handle w) (Research.intervals w))
    by constructor.
  pose proof (lone_fetch_stops_ticker (Research.Rejected None) [1; 1] w Hn Hf)
    as H.
  vm_compute in H. vm_compute. destruct H as (A & B & _).
  split; [exact A|exact B].
Defined.

End LoneFetch.

(** ** Saving, whatever the outcome *)

Section SaveMore.

Import Runs Measures.

Lemma Research_settle_save_eq (o : Research.save_outcome) (q : Research.t) :
  Research.settle_save o q =
  (tt, Research.with_isSaving false q,
   [match o with
    | Research.Saved result => ShowToast "Success" result "success"
    | Research.SaveRejected error =>
        ShowToast "Error"
          (Research.error_text error "Unable to save account research.") "error"
    end]).
Proof. destruct o; reflexivity. Qed.

Lemma Research_handleSaveToRecord_eq (p : Research.t) :
  Research.handleSaveToRecord p =
  if Js.truthy (Research.currentAccountId p) then
    (tt, Research.with_isSaving true p,
     [Apex (SaveCompanyResearch (Research.currentAccountId p)
                                (Research.formatDataAsHtml p))])
  else
    (tt, Research.with_isSaving false p,
     [ShowToast "Error" "No account ID provided." "error"]).
Proof.
  destruct p as [g il isv he em d cm li ix]. run_eff.
  destruct (Js.truthy (Guard.currentAccountId g)); reflexivity.
Qed.

(** X19.  A save changes no field of the panel but [isSaving], which is false
    again when the save is over: without a resolvable account there is an
    error toast and no remote call; otherwise there is one remote call,
    carrying the HTML of the research shown, and, when it settles, one
    toast, of success with the text the controller returned or of error. *)
Theorem save_touches_only_isSaving (p : Research.t) (o : Research.save_outcome) :
  let p1 := state_after Research.handleSaveToRecord p in
  let p2 := state_after (Research.settle_save o) p1 in
  (Js.truthy (Research.currentAccountId p) = false ->
     p1 = Research.with_isSaving false p
     /\ (Research.isSaving p = false -> p1 = p)
     /\ trace_of Research.handleSaveToRecord p
        = [ShowToast "Error" "No account ID provided." "error"])
  /\ (Js.truthy (Research.currentAccountId p) = true ->
     p1 = Research.with_isSaving true p
     /\ trace_of Research.handleSaveToRecord p
        = [Apex (SaveCompanyResearch (Research.currentAccountId p)
                                     (Research.formatDataAsHtml p))]
     /\ p2 = Research.with_isSaving false p
     /\ (Research.isSaving p = false -> p2 = p)
     /\ (forall result, o = Research.Saved result ->
           trace_of (Research.settle_save o) p1
           = [ShowToast "Success" result "success"])).
Proof.
  intros p1 p2. subst p2 p1. unfold state_after, trace_of.
  rewrite Research_handleSaveToRecord_eq.
  destruct p as [g il isv he em d cm li ix].
  destruct (Js.truthy (Research.currentAccountId _));
    cbn [fst snd]; rewrite ?Research_settle_save_eq; cbn [fst snd].
  - split; [intro; discriminate|].
    intros _. repeat split.
    + cbn. intros ->. reflexivity.
    + intros result ->. reflexivity.
  - split; [|intro; discriminate].
    intros _. repeat split. cbn. intros ->. reflexivity.
Qed.

Lemma save_touches_only_isSaving_witness :
  state_after (Research.settle_save (Research.Saved "Saved to account"))
              (state_after Research.handleSaveToRecord research_shown)
  = research_shown
  /\ trace_of Research.handleSaveToRecord Research.initial
     = [ShowToast "Error" "No account ID provided." "error"].
Proof.
  destruct (save_touches_only_isSaving research_shown
              (Research.Saved "Saved to account")) as (_ & A).
  destruct (save_touches_only_isSaving Research.initial
              (Research.Saved "Saved to account")) as (B & _).
  split.
  - destruct A as (_ & _ & _ & A & _); [reflexivity|]. apply A. reflexivity.
  - destruct B as (_ & _ & B); [reflexivity|]. exact B.
Defined.

End SaveMore.

(** ** The HTML of research with nothing to show, and the link buttons *)

Section HtmlEdges.

Import Runs Measures.

Lemma concat_cons (x : string) (xs : list string) :
  String.concat "" (x :: xs) = x ++ String.concat "" xs.
Proof.
  destruct xs as [|y ys]; cbn [String.concat]; [now rewrite append_empty|].
  reflexivity.
Qed.

Lemma headline_items_titled (hs : list (option Research.Headline)) :
  String.concat "" (map Research.headline_item hs)
  = String.concat "" (map Research.headline_item
                          (filter (fun h => negb (untitled h)) hs)).
Proof.
  induction hs as [|h r IH]; [reflexivity|].
  cbn [map filter]. destruct (untitled h) eqn:E; cbn [negb].
  - rewrite concat_cons, IH.
    assert (Hh : Research.headline_item h = "").
    { destruct h as [h|]; [|reflexivity]. cbn in E. unfold Research.headline_item.
      apply negb_true_iff in E. now rewrite E. }
    now rewrite Hh.
  - cbn [map]. now rewrite !concat_cons, IH.
Qed.

(** X20.  The list of headlines has one item for each headline with a title,
    in order, and skips the others; when there are headlines but none has
    a title, the heading is still written, over an empty list. *)
Theorem headlines_list_titled_only (hs : list (option Research.Headline)) :
  hs <> [] ->
  Research.recent_headlines hs
  = "<br/><h3>Recent Headlines</h3><ul>"
    ++ String.concat "" (map Research.headline_item
                             (filter (fun h => negb (untitled h)) hs))
    ++ "</ul>"
  /\ (forallb untitled hs = true ->
      Research.recent_headlines hs = "<br/><h3>Recent Headlines</h3><ul></ul>").
Proof.
  intro Hne.
  assert (Heq : Research.recent_headlines hs
                = "<br/><h3>Recent Headlines</h3><ul>"
                  ++ String.concat "" (map Research.headline_item
                       (filter (fun h => negb (untitled h)) hs))
                  ++ "</ul>").
  { destruct hs as [|h r]; [contradiction|].
    unfold Research.recent_headlines. now rewrite headline_items_titled. }
  split; [exact Heq|].
  intro Hall. rewrite Heq.
  assert (Hnil : filter (fun h => negb (untitled h)) hs = []).
  { clear Heq Hne. induction hs as [|h r IH]; [reflexivity|].
    cbn in Hall. apply andb_prop in Hall as [Hh Hr].
    cbn. rewrite Hh. cbn. now apply IH. }
  now rewrite Hnil.
Qed.

Lemma headlines_list_titled_only_witness :
  Research.recent_headlines
    [ None;
      Some {| Research.title := Some "Acme buys Apex"; Research.url := None |};
      Some {| Research.title := None; Research.url := Some "https://a.example" |} ]
  = "<br/><h3>Recent Headlines</h3><ul><li>Acme buys Apex</li></ul>"
  /\ Research.recent_headlines [None]
     = "<br/><h3>Recent Headlines</h3><ul></ul>".
Proof.
  split.
  - refine (proj1 (headlines_list_titled_only _ _)). discriminate.
  - refine (proj2 (headlines_list_titled_only [None] _) _);
      [discriminate|reflexivity].
Defined.

Lemma formatDataAsHtml_blank (p : Research.t) :
  match Research.data p with
  | Some d => blank d = true
  | None => True
  end ->
  Research.formatDataAsHtml p = "".
Proof.
  unfold Research.formatDataAsHtml.
  destruct (Research.data p) as [[ov f l hs]|]; [|reflexivity].
  unfold blank. cbn. intro H.
  apply andb_prop in H as [H Hh]. apply andb_prop in H as [H Hl].
  apply andb_prop in H as [Ho Hf]. apply negb_true_iff in Ho. rewrite Ho.
  destruct f; [discriminate Hf|]. destruct l; [discriminate Hl|].
  destruct hs as [[|h r]|]; try discriminate Hh; reflexivity.
Qed.

(** X21.  The save action does not look whether there is research to save: with
    an account and no research, or research with nothing in it, it calls
    the controller with an empty HTML string. *)
Theorem save_without_research_sends_empty_html (p : Research.t) :
  Js.truthy (Research.currentAccountId p) = true ->
  match Research.data p with
  | Some d => blank d = true
  | None => True
  end ->
  trace_of Research.handleSaveToRecord p
  = [Apex (SaveCompanyResearch (Research.currentAccountId p) "")].
Proof.
  intros Ha Hb. unfold trace_of.
  rewrite Research_handleSaveToRecord_eq, Ha. cbn [snd].
  now rewrite (formatDataAsHtml_blank p Hb).
Qed.

Lemma save_without_research_sends_empty_html_witness :
  trace_of Research.handleSaveToRecord
    (state_after (Research.set_accountId (Js.Str "001A")) Research.initial)
  = [Apex (SaveCompanyResearch (Js.Str "001A") "")].
Proof.
  apply (save_without_research_sends_empty_html
           (state_after (Research.set_accountId (Js.Str "001A"))
                        Research.initial)).
  - reflexivity.
  - exact I.
Defined.

Lemma open_link_opens (field : Research.Links -> Js.text) (p : Research.t) :
  Links.open_link field p
  = match Research.data p with
    | Some d =>
        match Research.links d with
        | Some l => opens (field l)
        | None => []
        end
    | None => []
    end.
Proof.
  unfold Links.open_link, Links.link, opens.
  destruct (Research.data p) as [d|]; [|reflexivity].
  destruct (Research.links d) as [l|]; [|reflexivity].
  destruct (field l) as [url|]; [|reflexivity]. cbn.
  destruct (url =? "")%string; reflexivity.
Qed.

(** X22.  Each of the three link buttons opens one window, in a new browsing
    context, at the URL that the payload holds in the button's field of
    [data.links], when that URL is a non-empty string; it opens nothing
    when there is no payload, no [links] object, or the field is missing or
    empty.  [hasAnyLink] holds exactly when one of the buttons would open a
    window, and exactly then the saved HTML has its section of quick
    links. *)
Theorem link_buttons_follow_payload (p : Research.t) :
  (forall field button,
     In (field, button)
        [ (Research.websiteUrl, Links.openWebsite);
          (Research.linkedinUrl, Links.openLinkedIn);
          (Research.newsSearchUrl, Links.openNews) ] ->
     (forall d l url,
        Research.data p = Some d -> Research.links d = Some l ->
        field l = Some url -> url <> "" ->
        button p = [Links.WindowOpen url "_blank"])
     /\ (Research.data p = None
         \/ (exists d, Research.data p = Some d
                       /\ (Research.links d = None
                           \/ exists l, Research.links d = Some l
                                        /\ (field l = None \/ field l = Some ""))) ->
         button p = []))
  /\ (Research.hasAnyLink p = true <->
      (Links.openWebsite p ++ Links.openLinkedIn p ++ Links.openNews p)%list <> [])
  /\ (forall d l, Research.data p = Some d -> Research.links d = Some l ->
        (Research.quick_links l <> "" <-> Research.hasAnyLink p = true)).
Proof.
  assert (Hbutton : forall field,
            (forall d l url,
               Research.data p = Some d -> Research.links d = Some l ->
               field l = Some url -> url <> "" ->
               Links.open_link field p = [Links.WindowOpen url "_blank"])
            /\ (Research.data p = None
                \/ (exists d, Research.data p = Some d
                       /\ (Research.links d = None
                           \/ exists l, Research.links d = Some l
                                /\ (field l = None \/ field l = Some ""))) ->
                Links.open_link field p = [])).
  { intro field. rewrite open_link_opens. split.
    - intros d l url -> -> -> Hu. cbn. apply String.eqb_neq in Hu.
      now rewrite Hu.
    - intros [->|(d & -> & [->|(l & -> & [->| ->])])]; reflexivity. }
  split; [|split].
  - intros field button [H|[H|[H|[]]]]; injection H as <- <-; apply Hbutton.
  - unfold Links.openWebsite, Links.openLinkedIn, Links.openNews,
      Research.hasAnyLink.
    rewrite !open_link_opens.
    destruct (Research.data p) as [d|]; [|split; [discriminate|contradiction]].
    destruct (Research.links d) as [l|]; [|split; [discriminate|contradiction]].
    unfold opens.
    destruct (Research.websiteUrl l) as [a|], (Research.linkedinUrl l) as [b|],
      (Research.newsSearchUrl l) as [c|]; cbn;
      try destruct (a =? "")%string; try destruct (b =? "")%string;
      try destruct (c =? "")%string; cbn; split; intro H;
      try discriminate; try reflexivity; now contradiction H.
  - intros d l Hd Hl. unfold Research.hasAnyLink, Research.quick_links.
    rewrite Hd, Hl.
    destruct (Js.truthy_text (Research.websiteUrl l)
              || Js.truthy_text (Research.linkedinUrl l)
              || Js.truthy_text (Research.newsSearchUrl l));
      split; intro H; try reflexivity; try discriminate;
      now contradiction H.
Qed.

Lemma link_buttons_follow_payload_witness :
  Links.openWebsite linked_panel
  = [Links.WindowOpen "https://acme.example" "_blank"]
  /\ Links.openLinkedIn linked_panel = []
  /\ Links.openNews Research.initial = []
  /\ Research.hasAnyLink linked_panel = true.
Proof.
  destruct (link_buttons_follow_payload linked_panel) as (B & A & _).
  destruct (link_buttons_follow_payload Research.initial) as (B0 & _).
  split; [|split; [|split]].
  - refine (proj1 (B Research.websiteUrl Links.openWebsite _)
              _ _ "https://acme.example" eq_refl eq_refl eq_refl _);
      [now left|discriminate].
  - refine (proj2 (B Research.linkedinUrl Links.openLinkedIn _) _);
      [right; now left|].
    right. eexists. split; [reflexivity|]. right. eexists.
    split; [reflexivity|]. now right.
  - refine (proj2 (B0 Research.newsSearchUrl Links.openNews _) _);
      [right; right; now left|]. now left.
  - apply A. discriminate.
Defined.

End HtmlEdges.
